(** * Class-unload tracking (share/back/classTrack.c)

    A shallow embedding of the JDWP back-end's class tracker: a singly
    linked list of [KlassNode]s living in the agent's heap, a JVMTI
    environment used only for object tags, and a 64-bit tag counter.

    The C functions are embedded as computations of a small state and
    error monad over [World], the module's static variables together
    with the part of the heap that holds its nodes.  Pointer
    dereferences consult the heap, so that a dangling or null pointer
    shows up as the outcome [Fault]; [EXIT_ERROR] shows up as [Exit]. *)

From Stdlib Require Import ZArith Lia Sorted.
From stdpp Require Import base option list gmap strings.

Local Open Scope Z_scope.

(** ** Machine integers and JNI handles *)

(** [jlong] is a signed 64-bit integer, [jint] a signed 32-bit one. *)
Definition jlong := Z.
Definition jint := Z.

Definition JLONG_MIN : jlong := - 2 ^ 63.
Definition JLONG_MAX : jlong := 2 ^ 63 - 1.

(** Two's complement wrap-around of an integer into the [jlong] range. *)
Definition wrap64 (z : Z) : jlong := (z + 2 ^ 63) mod 2 ^ 64 - 2 ^ 63.

(** A [jclass] is an opaque JNI reference. *)
Definition jclass := positive.

(** Addresses of heap blocks; the null pointer is [None]. *)
Definition addr := positive.

(** The error codes the module distinguishes.  [JVMTI_ERROR code] stands
    for any JVMTI error other than [JVMTI_ERROR_NONE]. *)
Inductive jvmtiError : Type :=
| JVMTI_ERROR_NONE
| JVMTI_ERROR (code : positive)
| AGENT_ERROR_INTERNAL
| AGENT_ERROR_OUT_OF_MEMORY.

#[global] Instance jvmtiError_eq_dec : EqDecision jvmtiError.
Proof. solve_decision. Defined.

(** jvmti.h: JVMTI_CLASS_STATUS_PREPARED and JVMTI_CLASS_STATUS_ARRAY. *)
Definition JVMTI_CLASS_STATUS_PREPARED : jint := 2.
Definition JVMTI_CLASS_STATUS_ARRAY : jint := 16.

(** ** The list node *)

Record KlassNode : Type := mkKlassNode {
  klass_tag : jlong;          (* Tag the klass has in the tracking-env *)
  signature : string;         (* class signature *)
  next : option addr          (* next node in this slot *)
}.

Definition set_klass_tag (t : jlong) (n : KlassNode) : KlassNode :=
  mkKlassNode t (signature n) (next n).
Definition set_signature (s : string) (n : KlassNode) : KlassNode :=
  mkKlassNode (klass_tag n) s (next n).
Definition set_next (p : option addr) (n : KlassNode) : KlassNode :=
  mkKlassNode (klass_tag n) (signature n) p.

(** The contents of a block fresh from [jvmtiAllocate]: C leaves it
    uninitialised and the module writes every field before reading it. *)
Definition uninitialized : KlassNode := mkKlassNode 0 "" None.

(** A [KlassNode**]: the address either of the static [list] or of the
    [next] field of a node. *)
Inductive slot : Type :=
| AddrOfList
| AddrOfNext (node : addr).

(** Modelled from the spec: the output collection of bag.c, which is not
    among the sources; "a caller-owned, growable container of signature
    strings".  [bagAdd] hands out the spot after the last item. *)
Definition bag := list string.

(** ** What the host provides

    The JVMTI tagging environment, the class enumeration of util.c and
    the allocators are outside the module.  They are taken as an
    interface; every theorem below holds for all of its instances. *)
Class Host : Type := {
  (** state of a JVMTI environment: which object carries which tag, and
      which objects are alive *)
  jvmtiEnv : Type;
  (** a fresh environment reserved for tagging, or NULL *)
  getSpecialJvmti : option jvmtiEnv;
  (** [GetObjectsWithTags env 1 &tag &res_count NULL NULL] *)
  GetObjectsWithTags : jvmtiEnv -> jlong -> jvmtiError * jint;
  GetTag : jvmtiEnv -> jclass -> jvmtiError * jlong;
  SetTag : jvmtiEnv -> jclass -> jlong -> jvmtiError * jvmtiEnv;
  classSignature : jclass -> jvmtiError * string;
  allLoadedClasses : jvmtiError * list jclass;
  classStatus : jclass -> jint;
  (** [jvmtiAllocate(sizeof(KlassNode))] given the blocks in use: NULL
      or a block that is not in use *)
  jvmtiAllocate : gmap addr KlassNode -> option addr;
  jvmtiAllocate_fresh :
    forall h a, jvmtiAllocate h = Some a -> h !! a = None;
  (** does [bagCreateBag] find memory; does [bagAdd] on this bag *)
  bagCreateBag_ok : bool;
  bagAdd_ok : bag -> bool
}.

Section ClassTrack.

Context `{host : Host}.

(** ** The state *)

Record World : Type := mkWorld {
  heap : gmap addr KlassNode;        (* the KlassNodes in use *)
  list_ : option addr;               (* static KlassNode *list *)
  trackingEnv : option jvmtiEnv;     (* static jvmtiEnv *trackingEnv *)
  currentKlassTag : jlong;           (* static jlong currentKlassTag *)
  assertOn : bool;                   (* gdata->assertOn *)
  assertFatal : bool;                (* gdata->assertFatal *)
  failedAsserts : list string        (* what JDI_ASSERT_FAILED reported *)
}.

Definition with_heap (f : gmap addr KlassNode -> gmap addr KlassNode) (w : World) : World :=
  mkWorld (f (heap w)) (list_ w) (trackingEnv w) (currentKlassTag w)
          (assertOn w) (assertFatal w) (failedAsserts w).
Definition with_list (p : option addr) (w : World) : World :=
  mkWorld (heap w) p (trackingEnv w) (currentKlassTag w)
          (assertOn w) (assertFatal w) (failedAsserts w).
Definition with_trackingEnv (e : option jvmtiEnv) (w : World) : World :=
  mkWorld (heap w) (list_ w) e (currentKlassTag w)
          (assertOn w) (assertFatal w) (failedAsserts w).
Definition with_currentKlassTag (t : jlong) (w : World) : World :=
  mkWorld (heap w) (list_ w) (trackingEnv w) t
          (assertOn w) (assertFatal w) (failedAsserts w).
Definition with_failedAssert (msg : string) (w : World) : World :=
  mkWorld (heap w) (list_ w) (trackingEnv w) (currentKlassTag w)
          (assertOn w) (assertFatal w) (failedAsserts w ++ [msg]).

(** ** Outcomes and the monad *)

Inductive outcome (A : Type) : Type :=
| Done (a : A) (w : World)                          (* the call returned *)
| Exit (error : jvmtiError) (msg : string) (w : World)  (* EXIT_ERROR *)
| Fault                          (* null or dangling pointer dereferenced *)
| OutOfFuel.                     (* the loop bound of the model ran out *)
Arguments Done {A} a w.
Arguments Exit {A} error msg w.
Arguments Fault {A}.
Arguments OutOfFuel {A}.

Definition M (A : Type) : Type := World -> outcome A.

Definition ret {A} (a : A) : M A := fun w => Done a w.

Definition bind {A B} (m : M A) (k : A -> M B) : M B :=
  fun w =>
    match m w with
    | Done a w' => k a w'
    | Exit e msg w' => Exit e msg w'
    | Fault => Fault
    | OutOfFuel => OutOfFuel
    end.

Notation "x <- m ;; k" := (bind m (fun x => k))
  (at level 100, m at next level, right associativity).
Notation "m ;;; k" := (bind m (fun _ => k))
  (at level 100, right associativity).

Definition gets {A} (f : World -> A) : M A := fun w => Done (f w) w.
Definition modify (f : World -> World) : M unit := fun w => Done tt (f w).

(** Modelled from the spec: the fatal-error channel, "a
    process-terminating report(kind, message)"; the macro EXIT_ERROR of
    util.h is not among the sources. *)
Definition EXIT_ERROR {A} (error : jvmtiError) (msg : string) : M A :=
  fun w => Exit error msg w.

(** JDI_ASSERT_FAILED is defined outside these sources.  It reports the
    message; whether it then terminates the agent is a setting of the
    agent, taken here as the parameter [assertFatal]. *)
Definition JDI_ASSERT_FAILED (msg : string) : M unit :=
  fun w =>
    let w' := with_failedAssert msg w in
    if assertFatal w then Exit AGENT_ERROR_INTERNAL "Assertion Failed" w'
    else Done tt w'.

(** *** Memory *)

(** [*p] for a [KlassNode *p]. *)
Definition load (p : addr) : M KlassNode :=
  fun w => match heap w !! p with
           | Some n => Done n w
           | None => Fault
           end.

(** [p->field = v], as an update [f] of the node at [p]. *)
Definition store (p : addr) (f : KlassNode -> KlassNode) : M unit :=
  fun w => match heap w !! p with
           | Some n => Done tt (with_heap (insert p (f n)) w)
           | None => Fault
           end.

(** [*s] and [*s = v] for a [KlassNode **s]. *)
Definition load_slot (s : slot) : M (option addr) :=
  match s with
  | AddrOfList => gets list_
  | AddrOfNext p => n <- load p ;; ret (next n)
  end.

Definition store_slot (s : slot) (v : option addr) : M unit :=
  match s with
  | AddrOfList => modify (with_list v)
  | AddrOfNext p => store p (set_next v)
  end.

Definition allocate_KlassNode : M (option addr) :=
  fun w => match jvmtiAllocate (heap w) with
           | Some p => Done (Some p) (with_heap (insert p uninitialized) w)
           | None => Done None w
           end.

Definition jvmtiDeallocate (p : addr) : M unit :=
  fun w => match heap w !! p with
           | Some _ => Done tt (with_heap (delete p) w)
           | None => Fault
           end.

(** The environment behind the static [trackingEnv]. *)
Definition the_trackingEnv : M jvmtiEnv :=
  fun w => match trackingEnv w with
           | Some e => Done e w
           | None => Fault
           end.

(** [++currentKlassTag] *)
Definition pre_increment_currentKlassTag : M jlong :=
  fun w => let t := wrap64 (currentKlassTag w + 1) in
           Done t (with_currentKlassTag t w).

(** ** The functions of classTrack.c *)

(** The [while] loop of [deleteList]. *)
Fixpoint deleteList_loop (fuel : nat) (node : option addr) (signatures : bag)
  : M bag :=
  match node with
  | None => ret signatures
  | Some p =>
      match fuel with
      | O => fun _ => OutOfFuel
      | S fuel' =>
          (* Add signature to the signature bag *)
          if bagAdd_ok signatures then
            n <- load p ;;
            let signatures' := signatures ++ [signature n] in
            (* No need to delete the tag since the object was already
               destroyed. *)
            n' <- load p ;;
            let next_ := next n' in
            jvmtiDeallocate p ;;;
            deleteList_loop fuel' next_ signatures'
          else EXIT_ERROR AGENT_ERROR_OUT_OF_MEMORY "signature bag"
      end
  end.

(** Delete a linked-list of classes.  The signatures of classes in the
    table are returned. *)
Definition deleteList (fuel : nat) (node : option addr) : M bag :=
  if bagCreateBag_ok then deleteList_loop fuel node []
  else EXIT_ERROR AGENT_ERROR_OUT_OF_MEMORY "signatures".

Definition isClassUnloaded (tag : jlong) : M bool :=
  env <- the_trackingEnv ;;
  let '(error, res_count) := GetObjectsWithTags env tag in
  if negb (bool_decide (error = JVMTI_ERROR_NONE)) then
    EXIT_ERROR error "Failed GetObjectsWithTags for class tracking"
  else if negb (res_count =? 0) && negb (res_count =? 1) then
    EXIT_ERROR AGENT_ERROR_INTERNAL "Unexpected extra tags in trackingEnv!"
  else ret (res_count =? 0).

(** The [while] loop of [classTrack_processUnloads]; it returns
    [toDeleteList]. *)
Fixpoint processUnloads_loop (fuel : nat) (toDeleteList : option addr)
    (anyRemoved : bool) (node : option addr) (previousNext : slot)
  : M (option addr) :=
  match node with
  | None => ret toDeleteList
  | Some p =>
      match fuel with
      | O => fun _ => OutOfFuel
      | S fuel' =>
          n <- load p ;;
          unloaded <- isClassUnloaded (klass_tag n) ;;
          if unloaded : bool then
            (* Update the previous node's next pointer to point after
               this node. *)
            n1 <- load p ;;
            store_slot previousNext (next n1) ;;;
            (* Remove this node from the 'list' and put it into
               toDeleteList *)
            store p (set_next toDeleteList) ;;;
            node' <- load_slot previousNext ;;
            processUnloads_loop fuel' (Some p) true node' previousNext
          else
            (* This node will become the previous node *)
            node' <- load_slot (AddrOfNext p) ;;
            processUnloads_loop fuel' toDeleteList anyRemoved node'
                                (AddrOfNext p)
      end
  end.

(** Called after class unloads have occurred.  The signatures of classes
    which were unloaded are returned.  (The [JNIEnv*] argument is not
    used by the function.) *)
Definition classTrack_processUnloads (fuel : nat) : M bag :=
  node <- gets list_ ;;
  toDeleteList <- processUnloads_loop fuel None false node AddrOfList ;;
  deleteList fuel toDeleteList.

(** The block of [classTrack_addPreparedClass] guarded by
    [gdata->assertOn]: check this is not a duplicate. *)
Definition addPreparedClass_check (klass : jclass) : M unit :=
  env <- the_trackingEnv ;;
  let '(error, tag) := GetTag env klass in
  if negb (bool_decide (error = JVMTI_ERROR_NONE)) then
    EXIT_ERROR error "unable to get-tag with class trackingEnv!"
  else if negb (tag =? 0) then
    JDI_ASSERT_FAILED "Attempting to insert duplicate class"
  else ret tt.

(** The rest of [classTrack_addPreparedClass]: build the node, tag the
    class, link the node in.  (Signatures are values here, so the
    [jvmtiDeallocate(node->signature)] of the last error path has no
    counterpart.) *)
Definition addPreparedClass_insert (klass : jclass) : M unit :=
  node <- allocate_KlassNode ;;
  match node with
  | None => EXIT_ERROR AGENT_ERROR_OUT_OF_MEMORY "KlassNode"
  | Some node =>
      let '(error, sig) := classSignature klass in
      if negb (bool_decide (error = JVMTI_ERROR_NONE)) then
        jvmtiDeallocate node ;;;
        EXIT_ERROR error "signature"
      else
        store node (set_signature sig) ;;;
        tag <- pre_increment_currentKlassTag ;;
        store node (set_klass_tag tag) ;;;
        env <- the_trackingEnv ;;
        n <- load node ;;
        let '(error, env') := SetTag env klass (klass_tag n) in
        modify (with_trackingEnv (Some env')) ;;;
        if negb (bool_decide (error = JVMTI_ERROR_NONE)) then
          jvmtiDeallocate node ;;;
          EXIT_ERROR error "SetTag"
        else
          (* Insert the new node *)
          l <- gets list_ ;;
          store node (set_next l) ;;;
          modify (with_list (Some node))
  end.

(** Add a class to the prepared class list.  Assumes no duplicates. *)
Definition classTrack_addPreparedClass (klass : jclass) : M unit :=
  on <- gets assertOn ;;
  (if on : bool then addPreparedClass_check klass else ret tt) ;;;
  addPreparedClass_insert klass.

(** The [for] loop of [classTrack_initialize] over [classes[0 ..
    classCount-1]]. *)
Fixpoint initialize_loop (classes : list jclass) : M unit :=
  match classes with
  | [] => ret tt
  | klass :: rest =>
      let wanted :=
        Z.lor JVMTI_CLASS_STATUS_PREPARED JVMTI_CLASS_STATUS_ARRAY in
      (* We only want prepared classes and arrays *)
      let status := classStatus klass in
      (if negb (Z.land status wanted =? 0) then
         classTrack_addPreparedClass klass
       else ret tt) ;;;
      initialize_loop rest
  end.

(** Called once to build the initial prepared class list.
    (WITH_LOCAL_REFS brackets the body in a JNI local-reference frame,
    which holds none of the module's state.) *)
Definition classTrack_initialize : M unit :=
  modify (with_trackingEnv getSpecialJvmti) ;;;
  e <- gets trackingEnv ;;
  match e with
  | None =>
      EXIT_ERROR AGENT_ERROR_INTERNAL
                 "Failed to allocate tag-tracking jvmtiEnv"
  | Some _ =>
      modify (with_currentKlassTag 0) ;;;
      modify (with_list None) ;;;
      let '(error, classes) := allLoadedClasses in
      if bool_decide (error = JVMTI_ERROR_NONE) then
        initialize_loop classes
      else EXIT_ERROR error "loaded classes array"
  end.

Definition classTrack_reset : M unit := ret tt.

(** ** Reading the registry off the heap *)

(** A tracked class: the node's address, tag and signature. *)
Record TrackedClass : Type := mkTrackedClass {
  tc_addr : addr;
  tc_tag : jlong;
  tc_sig : string
}.

(** [chain h p l]: following [next] pointers from [p] in [h] visits
    exactly the nodes [l] and ends in the null pointer. *)
Fixpoint chain (h : gmap addr KlassNode) (p : option addr)
    (l : list TrackedClass) : Prop :=
  match l with
  | [] => p = None
  | r :: l' =>
      p = Some (tc_addr r) /\
      exists nx, h !! tc_addr r = Some (mkKlassNode (tc_tag r) (tc_sig r) nx)
                 /\ chain h nx l'
  end.

(** The registry of [w], most recently added class first. *)
Definition registry (w : World) (l : list TrackedClass) : Prop :=
  chain (heap w) (list_ w) l.

Definition addrs (l : list TrackedClass) : list addr := map tc_addr l.

(** The fields of the world other than the heap. *)
Definition statics (w : World) : World := with_heap (fun _ => ∅) w.

(** How [isClassUnloaded] fares on a tag: the exit it takes, if any. *)
Definition query_failure (env : jvmtiEnv) (tag : jlong)
  : option (jvmtiError * string) :=
  let '(error, res_count) := GetObjectsWithTags env tag in
  if negb (bool_decide (error = JVMTI_ERROR_NONE)) then
    Some (error, "Failed GetObjectsWithTags for class tracking")
  else if negb (res_count =? 0) && negb (res_count =? 1) then
    Some (AGENT_ERROR_INTERNAL, "Unexpected extra tags in trackingEnv!")
  else None.

Fixpoint first_failure (env : jvmtiEnv) (l : list TrackedClass)
  : option (jvmtiError * string) :=
  match l with
  | [] => None
  | r :: l' =>
      match query_failure env (tc_tag r) with
      | Some f => Some f
      | None => first_failure env l'
      end
  end.

(** The oracle's verdict on a record: no live object carries its tag. *)
Definition unloaded (env : jvmtiEnv) (r : TrackedClass) : bool :=
  (GetObjectsWithTags env (tc_tag r)).2 =? 0.

Definition still_live (env : jvmtiEnv) (r : TrackedClass) : bool :=
  negb (unloaded env r).

(** The oracle answers the query for [tag], and with a count of 0 or 1. *)
Definition answers_liveness (env : jvmtiEnv) (tag : jlong) : Prop :=
  exists c, GetObjectsWithTags env tag = (JVMTI_ERROR_NONE, c) /\
            (c = 0 \/ c = 1).

(** There is memory for the bag and all its items. *)
Definition bag_memory : Prop :=
  bagCreateBag_ok = true /\ forall b, bagAdd_ok b = true.

(** What the loop of [classTrack_processUnloads] has done when it leaves
    with [toDeleteList = td'] in world [w'], having started in [w] at
    the nodes [rest] with [previousNext = s] and the nodes [tdl] already
    on [toDeleteList]: seen from outside [rest], a single store into
    [s]; the survivors hang off [s], the others off [td']. *)
Definition loop_post (env : jvmtiEnv) (w : World) (s : slot)
    (rest tdl : list TrackedClass) (td' : option addr) (w' : World) : Prop :=
  exists p' wf,
    store_slot s p' w = Done tt wf /\
    statics w' = statics wf /\
    (forall a, a ∉ addrs rest -> heap w' !! a = heap wf !! a) /\
    chain (heap w') p' (filter (still_live env) rest) /\
    chain (heap w') td' (reverse (filter (unloaded env) rest) ++ tdl) /\
    dom (heap w') = dom (heap w).

(** The world after a successful insertion. *)
Definition inserted (w : World) (node : addr) (sig : string)
    (env' : jvmtiEnv) : World :=
  mkWorld (<[node := mkKlassNode (wrap64 (currentKlassTag w + 1)) sig (list_ w)]>
             (heap w))
          (Some node) (Some env') (wrap64 (currentKlassTag w + 1))
          (assertOn w) (assertFatal w) (failedAsserts w).

(** The status test of [classTrack_initialize]. *)
Definition wanted_class (klass : jclass) : bool :=
  negb (Z.land (classStatus klass)
               (Z.lor JVMTI_CLASS_STATUS_PREPARED JVMTI_CLASS_STATUS_ARRAY)
        =? 0).

(** The tags of the registry of [w] are among the first [z] values the
    counter has taken since it was zero, [z] increments ago. *)
Definition tags_wrapped (z : Z) (w : World) : Prop :=
  exists l, registry w l /\ currentKlassTag w = wrap64 z /\ 0 <= z /\
            Forall (fun r => exists k, 1 <= k <= z /\ tc_tag r = wrap64 k) l /\
            is_Some (trackingEnv w).

(** The world in which [classTrack_initialize] starts its loop. *)
Definition reinitialized (w : World) (env0 : jvmtiEnv) : World :=
  mkWorld (heap w) None (Some env0) 0
          (assertOn w) (assertFatal w) (failedAsserts w).

Definition wanted (classes : list jclass) : list jclass :=
  filter wanted_class classes.

(** ** Sequences of calls *)

(** What happens to the tracker between initialisation and shutdown: the
    agent calls in, and the virtual machine changes its tagging
    environment on its own (objects die). *)
Inductive call : Type :=
| AddPreparedClass (klass : jclass)
| ProcessUnloads (fuel : nat)
| HostStep (f : jvmtiEnv -> jvmtiEnv).

(** [list->klass_tag]: the tag of the most recently inserted record. *)
Definition newest_tag : M jlong :=
  p <- gets list_ ;;
  match p with
  | Some p => n <- load p ;; ret (klass_tag n)
  | None => fun _ => Fault
  end.

(** Run the calls in order; the result lists the tags given to the
    records inserted, in the order of insertion. *)
Fixpoint run (calls : list call) : M (list jlong) :=
  match calls with
  | [] => ret []
  | AddPreparedClass klass :: rest =>
      classTrack_addPreparedClass klass ;;;
      t <- newest_tag ;;
      ts <- run rest ;;
      ret (t :: ts)
  | ProcessUnloads fuel :: rest =>
      classTrack_processUnloads fuel ;;; run rest
  | HostStep f :: rest =>
      modify (fun w => with_trackingEnv (f <$> trackingEnv w) w) ;;;
      run rest
  end.

Definition is_add (c : call) : bool :=
  match c with AddPreparedClass _ => true | _ => false end.

(** How many tags the calls allocate. *)
Definition allocations (calls : list call) : Z :=
  Z.of_nat (length (filter is_add calls)).

(** ** Notions used to state what the calls preserve *)

(** [w'] differs from [w] at most in the heap and the list head. *)
Definition keeps_statics (w w' : World) : Prop :=
  currentKlassTag w' = currentKlassTag w /\
  trackingEnv w' = trackingEnv w /\
  assertOn w' = assertOn w /\
  assertFatal w' = assertFatal w /\
  failedAsserts w' = failedAsserts w.

(** The host never refuses: there is always a block, every class has a
    signature, and tags can always be read and set. *)
Definition host_plays_along : Prop :=
  (forall h, is_Some (jvmtiAllocate h)) /\
  (forall klass, (classSignature klass).1 = JVMTI_ERROR_NONE) /\
  (forall env klass tag, (SetTag env klass tag).1 = JVMTI_ERROR_NONE) /\
  (forall env klass, (GetTag env klass).1 = JVMTI_ERROR_NONE).

(** The registry [l] of [w] is all there is in the heap. *)
Definition owns (w : World) (l : list TrackedClass) : Prop :=
  registry w l /\ dom (heap w) = list_to_set (addrs l) /\
  is_Some (trackingEnv w).

(** The registry of [w] runs from the newest record to the oldest: its
    tags fall strictly, from at most the counter [n] to at least 1. *)
Definition newest_first (n : Z) (w : World) : Prop :=
  exists l, registry w l /\ currentKlassTag w = n /\ 0 <= n /\
            Forall (fun r => 1 <= tc_tag r <= n) l /\
            StronglySorted Z.gt (map tc_tag l) /\
            is_Some (trackingEnv w).

End ClassTrack.

Arguments Done {host A} a w.
Arguments Exit {host A} error msg w.
Arguments Fault {host A}.
Arguments OutOfFuel {host A}.

Notation "x <- m ;; k" := (bind m (fun x => k))
  (at level 100, m at next level, right associativity).
Notation "m ;;; k" := (bind m (fun _ => k))
  (at level 100, right associativity).

(** ** A host to run the tracker on

    A tagging environment kept as the list of the live tagged objects,
    an allocator that always finds a block, three prepared classes and
    one class that is only loaded. *)
Module Stub.

Definition env := list (jclass * jlong).

Definition GetObjectsWithTags (e : env) (tag : jlong) : jvmtiError * jint :=
  (JVMTI_ERROR_NONE,
   Z.of_nat (length (List.filter (fun o => o.2 =? tag) e))).

Definition GetTag (e : env) (klass : jclass) : jvmtiError * jlong :=
  (JVMTI_ERROR_NONE,
   match List.find (fun o => Pos.eqb o.1 klass) e with
   | Some o => o.2
   | None => 0
   end).

Definition SetTag (e : env) (klass : jclass) (tag : jlong)
  : jvmtiError * env :=
  (JVMTI_ERROR_NONE,
   (klass, tag) :: List.filter (fun o => negb (Pos.eqb o.1 klass)) e).

Definition classSignature (klass : jclass) : jvmtiError * string :=
  (JVMTI_ERROR_NONE,
   match klass with
   | 1%positive => "LA;"
   | 2%positive => "LB;"
   | 3%positive => "[LC;"
   | _ => "LD;"
   end).

Definition classStatus (klass : jclass) : jint :=
  match klass with
  | 1%positive => 7      (* verified, prepared, initialized *)
  | 2%positive => 3      (* verified, prepared *)
  | 3%positive => 16     (* array *)
  | _ => 1               (* verified only *)
  end.

Definition jvmtiAllocate (h : gmap addr KlassNode) : option addr :=
  Some (fresh (dom h)).

Lemma jvmtiAllocate_fresh (h : gmap addr KlassNode) (a : addr) :
  jvmtiAllocate h = Some a -> h !! a = None.
Proof.
  unfold jvmtiAllocate. intros [= <-].
  apply not_elem_of_dom, is_fresh.
Qed.

#[global] Instance host : Host :=
  Build_Host env (Some []) GetObjectsWithTags GetTag SetTag classSignature
             (JVMTI_ERROR_NONE, [1; 2; 4; 3]%positive) classStatus
             jvmtiAllocate jvmtiAllocate_fresh true (fun _ => true).

(** The world before [classTrack_initialize]: nothing allocated, the
    statics zeroed, assertions as given. *)
Definition start (on fatal : bool) : World :=
  mkWorld ∅ None None 0 on fatal [].

(** The three prepared classes, as records. *)
Definition A : TrackedClass := mkTrackedClass 1%positive 1 "LA;".
Definition B : TrackedClass := mkTrackedClass 2%positive 2 "LB;".
Definition C : TrackedClass := mkTrackedClass 3%positive 3 "[LC;".

Definition heap_ABC : gmap addr KlassNode :=
  <[3%positive := mkKlassNode 3 "[LC;" (Some 2%positive)]>
    (<[2%positive := mkKlassNode 2 "LB;" (Some 1%positive)]>
       (<[1%positive := mkKlassNode 1 "LA;" None]> ∅)).

(** All three classes alive and tagged. *)
Definition env_ABC : @jvmtiEnv host := [(3%positive, 3); (2%positive, 2); (1%positive, 1)].
(** B has been collected. *)
Definition env_AC : @jvmtiEnv host := [(3%positive, 3); (1%positive, 1)].
(** B has been collected and some other object also carries the tag of A. *)
Definition env_AAC : @jvmtiEnv host :=
  [(3%positive, 3); (1%positive, 1); (7%positive, 1)].

(** The tracker after [classTrack_initialize], with the tagging
    environment in state [e]. *)
Definition tracking (e : @jvmtiEnv host) (on fatal : bool) : World :=
  mkWorld heap_ABC (Some 3%positive) (Some e) 3 on fatal [].

(** B dies, a pass reports it, and two more classes are prepared. *)
Definition example_calls : list call :=
  [AddPreparedClass 4%positive;
   HostStep (fun _ => [(4%positive, 4); (3%positive, 3); (1%positive, 1)]);
   ProcessUnloads 4;
   AddPreparedClass 5%positive].

(** The tracker after [example_calls]: the record of B is gone and its
    tag is not in use again. *)
Definition after_calls : World :=
  mkWorld
    (<[5%positive := mkKlassNode 5 "LD;" (Some 4%positive)]>
       (<[4%positive := mkKlassNode 4 "LD;" (Some 3%positive)]>
          (<[3%positive := mkKlassNode 3 "[LC;" (Some 1%positive)]>
             (<[1%positive := mkKlassNode 1 "LA;" None]> ∅))))
    (Some 5%positive)
    (Some [(5%positive, 5); (4%positive, 4); (3%positive, 3); (1%positive, 1)])
    5 true true [].

(** A and B have been collected. *)
Definition env_C : @jvmtiEnv host := [(3%positive, 3)].

(** The tracker after a pass that found B collected. *)
Definition after_pass : World :=
  mkWorld
    (<[3%positive := mkKlassNode 3 "[LC;" (Some 1%positive)]>
       (<[1%positive := mkKlassNode 1 "LA;" None]> ∅))
    (Some 3%positive) (Some env_AC) 3 false false [].

(** A host like the stub, except that the tagging environment fails
    (JVMTI_ERROR_WRONG_PHASE, 112) when asked about tag 2. *)
Definition deaf_host : Host :=
  Build_Host env (Some [])
             (fun e tag => if tag =? 2 then (JVMTI_ERROR 112, 0)
                           else GetObjectsWithTags e tag)
             GetTag SetTag classSignature
             (JVMTI_ERROR_NONE, [1; 2; 4; 3]%positive) classStatus
             jvmtiAllocate jvmtiAllocate_fresh true (fun _ => true).

(** The tracker after [classTrack_initialize] on that host. *)
Definition tracking_deaf : @World deaf_host :=
  mkWorld (host := deaf_host) heap_ABC (Some 3%positive) (Some env_ABC) 3
          false false [].

(** An allocator with room for four nodes. *)
Definition small_allocate (h : gmap addr KlassNode) : option addr :=
  if decide (size h < 4)%nat then Some (fresh (dom h)) else None.

Lemma small_allocate_fresh (h : gmap addr KlassNode) (a : addr) :
  small_allocate h = Some a -> h !! a = None.
Proof.
  unfold small_allocate. destruct (decide _); [|done]. intros [= <-].
  apply not_elem_of_dom, is_fresh.
Qed.

(** The stub on a small heap: no more than four nodes at a time. *)
Definition small_host : Host :=
  Build_Host env (Some []) GetObjectsWithTags GetTag SetTag classSignature
             (JVMTI_ERROR_NONE, [1; 2; 4; 3]%positive) classStatus
             small_allocate small_allocate_fresh true (fun _ => true).

(** The world before and after [classTrack_initialize] on the small
    heap, with assertions on and fatal. *)
Definition small_start : @World small_host :=
  mkWorld (host := small_host) ∅ None None 0 true true [].

Definition small_tracking : @World small_host :=
  mkWorld (host := small_host) heap_ABC (Some 3%positive) (Some env_ABC) 3
          true true [].

(** The tracker on the small heap between two class loads: A, B and C
    are tracked and alive, the counter has been incremented [z] times
    and no assertion has been reported. *)
Definition settled (z : Z) (w : @World small_host) : Prop :=
  registry w [C; B; A] /\
  dom (heap w) = dom heap_ABC /\
  trackingEnv w = Some env_ABC /\
  currentKlassTag w = wrap64 z /\
  assertOn w = true /\ assertFatal w = true /\ failedAsserts w = [].

(** The life of a short-lived class: it is prepared (the virtual
    machine hands it out under the reference 5), it is unloaded and its
    class object collected, and a pass reports it. *)
Definition short_life : list (@call small_host) :=
  [AddPreparedClass (host := small_host) 5%positive;
   HostStep (host := small_host) (fun _ => env_ABC);
   ProcessUnloads (host := small_host) 4].

(** [n] short-lived classes, one after the other. *)
Fixpoint churn (n : nat) : list (@call small_host) :=
  match n with
  | O => []
  | S n' => short_life ++ churn n'
  end.

End Stub.

(** * Properties *)

Section Properties.

Context `{host : Host}.

Implicit Types (h : gmap addr KlassNode) (p q : option addr) (a : addr).
Implicit Types (l : list TrackedClass) (r : TrackedClass) (w : World).

(** ** Chains *)

Lemma chain_frame h h' p l :
  chain h p l ->
  (forall a, a ∈ addrs l -> h' !! a = h !! a) ->
  chain h' p l.
Proof.
  revert p. induction l as [|r l IH]; intros p Hc Hfr; simpl in *; [done|].
  destruct Hc as (-> & nx & Hr & Hc). split; [done|].
  exists nx. split.
  - rewrite Hfr; [done|]. unfold addrs. simpl. left.
  - apply IH; [done|]. intros a Ha. apply Hfr. unfold addrs. simpl. by right.
Qed.

Lemma chain_functional h p l1 l2 :
  chain h p l1 -> chain h p l2 -> l1 = l2.
Proof.
  revert p l2. induction l1 as [|r1 l1 IH]; intros p [|r2 l2] H1 H2;
    simpl in *.
  - done.
  - destruct H2 as [-> _]. done.
  - destruct H1 as [-> _]. done.
  - destruct H1 as (-> & n1 & Hr1 & H1). destruct H2 as (Heq & n2 & Hr2 & H2).
    injection Heq as Heq. rewrite <- Heq in Hr2. rewrite Hr1 in Hr2.
    injection Hr2 as Ht Hs Hn. subst n2.
    f_equal; [|by eapply IH].
    destruct r1, r2; simpl in *; congruence.
Qed.

Lemma chain_drop h p l1 l2 :
  chain h p (l1 ++ l2) -> exists q, chain h q l2.
Proof.
  revert p. induction l1 as [|r l1 IH]; intros p Hc; simpl in *.
  - by exists p.
  - destruct Hc as (_ & nx & _ & Hc). by eapply IH.
Qed.

Lemma chain_lookup h p l r :
  chain h p l -> r ∈ l ->
  exists nx, h !! tc_addr r = Some (mkKlassNode (tc_tag r) (tc_sig r) nx).
Proof.
  revert p. induction l as [|r' l IH]; intros p Hc Hin; simpl in *.
  - by apply not_elem_of_nil in Hin.
  - destruct Hc as (_ & nx & Hr & Hc).
    apply elem_of_cons in Hin as [->|Hin]; [by exists nx|by eapply IH].
Qed.

(** A chain that ends in the null pointer visits no node twice. *)
Lemma chain_NoDup h p l : chain h p l -> NoDup (addrs l).
Proof.
  revert p. induction l as [|r l IH]; intros p Hc; simpl.
  - constructor.
  - pose proof Hc as Hc0.
    simpl in Hc. destruct Hc as (-> & nx & Hr & Hc).
    constructor; [|by eapply IH].
    intros Hin. apply list_elem_of_fmap in Hin as (r' & Ha & Hin).
    apply list_elem_of_split in Hin as (l1 & l2 & ->).
    destruct (chain_drop h nx l1 (r' :: l2) Hc) as [q Hq].
    pose proof Hq as Hq0. simpl in Hq. destruct Hq as (-> & _).
    rewrite <- Ha in Hq0.
    pose proof (chain_functional _ _ _ _ Hc0 Hq0) as Heq.
    apply (f_equal length) in Heq. simpl in Heq.
    rewrite length_app in Heq. simpl in Heq. lia.
Qed.

(** ** The two loops *)

Lemma deleteList_loop_outcome tdl : forall fuel td sigs w,
  chain (heap w) td tdl ->
  match deleteList_loop fuel td sigs w with
  | Done sigs' w' =>
      (length tdl <= fuel)%nat /\ sigs' = sigs ++ map tc_sig tdl /\
      statics w' = statics w /\
      forall a, heap w' !! a = if decide (a ∈ addrs tdl) then None else heap w !! a
  | Exit e msg w' => e = AGENT_ERROR_OUT_OF_MEMORY /\ exists b, bagAdd_ok b = false
  | Fault => False
  | OutOfFuel => (fuel < length tdl)%nat
  end.
Proof.
  induction tdl as [|r tdl IH]; intros fuel td sigs w Hc.
  - simpl in Hc. subst td. destruct fuel; simpl; unfold ret.
    all: repeat split; try lia; try by rewrite app_nil_r.
    all: intros a; by rewrite decide_False by apply not_elem_of_nil.
  - pose proof (chain_NoDup _ _ _ Hc) as Hnd.
    simpl in Hc. destruct Hc as (-> & nx & Hr & Hc).
    destruct fuel as [|fuel]; simpl; [lia|].
    destruct (bagAdd_ok sigs) eqn:Hbag; [|unfold EXIT_ERROR; eauto].
    unfold bind, load, jvmtiDeallocate. rewrite !Hr. simpl.
    assert (Hc' : chain (heap (with_heap (delete (tc_addr r)) w)) nx tdl).
    { eapply chain_frame; [exact Hc|]. intros a Ha. simpl.
      apply lookup_delete_ne. intros <-. by inversion Hnd. }
    specialize (IH fuel nx (sigs ++ [tc_sig r]) _ Hc').
    destruct (deleteList_loop fuel nx (sigs ++ [tc_sig r]) _) as [sigs' w'| | |];
      [|done|done|simpl; lia].
    destruct IH as (Hlen & -> & Hst & Hheap).
    split; [simpl; lia|]. split; [by rewrite <- app_assoc|]. split; [done|].
    intros a. rewrite Hheap. simpl.
    destruct (decide (a = tc_addr r)) as [->|Hne].
    + rewrite lookup_delete_eq. rewrite (decide_True (P := _ ∈ _ :: _)) by left.
      by destruct (decide _).
    + rewrite lookup_delete_ne by done.
      destruct (decide (a ∈ addrs tdl)).
      * rewrite decide_True; [done|]. by right.
      * rewrite decide_False; [done|]. intros [->|?]%elem_of_cons; done.
Qed.

Lemma load_slot_inv s w v w' :
  load_slot s w = Done v w' ->
  w' = w /\
  match s with
  | AddrOfList => list_ w = v
  | AddrOfNext a => exists na, heap w !! a = Some na /\ next na = v
  end.
Proof.
  destruct s as [|a]; simpl.
  - unfold gets. by intros [= <- <-].
  - unfold bind, load, ret. destruct (heap w !! a) as [na|]; [|done].
    intros [= <- <-]. eauto.
Qed.

Lemma set_next_same (n : KlassNode) : set_next (next n) n = n.
Proof. by destruct n. Qed.

Lemma store_slot_same s w v :
  load_slot s w = Done v w -> store_slot s v w = Done tt w.
Proof.
  intros [_ Hs]%load_slot_inv. destruct s as [|a]; simpl.
  - subst v. unfold modify. by destruct w.
  - destruct Hs as (na & Ha & <-). unfold store. rewrite Ha.
    rewrite set_next_same. f_equal. unfold with_heap.
    rewrite insert_id by done. by destruct w.
Qed.

(** One turn of the loop on an unloaded node: the node is spliced out of
    the list and pushed on [toDeleteList]. *)
Lemma unloaded_step env w s r nx rest td tdl :
  heap w !! tc_addr r = Some (mkKlassNode (tc_tag r) (tc_sig r) nx) ->
  chain (heap w) nx rest ->
  tc_addr r ∉ addrs rest ->
  load_slot s w = Done (Some (tc_addr r)) w ->
  (forall a, s = AddrOfNext a -> (a ∉ addrs (r :: rest)) /\ (a ∉ addrs tdl)) ->
  chain (heap w) td tdl ->
  (forall a, a ∈ addrs (r :: rest) -> a ∉ addrs tdl) ->
  unloaded env r = true ->
  exists w2,
    (forall B (k : option addr -> M B),
        (n1 <- load (tc_addr r) ;;
         store_slot s (next n1) ;;;
         store (tc_addr r) (set_next td) ;;;
         node' <- load_slot s ;;
         k node') w = k nx w2) /\
    trackingEnv w2 = trackingEnv w /\
    chain (heap w2) nx rest /\
    load_slot s w2 = Done nx w2 /\
    chain (heap w2) (Some (tc_addr r)) (r :: tdl) /\
    (forall td' w',
        loop_post env w2 s rest (r :: tdl) td' w' ->
        loop_post env w s (r :: rest) tdl td' w').
Proof.
  intros Hr Hc Hnotin Hs Hout Htd Hdisj Hdead.
  assert (Hp_tdl : tc_addr r ∉ addrs tdl) by (apply Hdisj; left).
  assert (Hfilter : forall td' w' p',
    chain (heap w') p' (filter (still_live env) rest) ->
    chain (heap w') td' (reverse (filter (unloaded env) rest) ++ r :: tdl) ->
    chain (heap w') p' (filter (still_live env) (r :: rest)) /\
    chain (heap w') td' (reverse (filter (unloaded env) (r :: rest)) ++ tdl)).
  { intros td' w' p' Hlive Hgone. split.
    - rewrite filter_cons_False; [done|].
      unfold still_live. rewrite Hdead. simpl. tauto.
    - rewrite filter_cons_True by (by rewrite Hdead).
      by rewrite reverse_cons, <- app_assoc. }
  apply load_slot_inv in Hs as [_ Hs]. destruct s as [|a].
  - exists (with_heap (insert (tc_addr r)
              (mkKlassNode (tc_tag r) (tc_sig r) td)) (with_list nx w)).
    split; [|split; [done|split; [|split; [done|split]]]].
    + intros B k. unfold bind, load, store_slot, modify, store. rewrite Hr.
      simpl. by rewrite Hr.
    + eapply chain_frame; [exact Hc|]. intros a Ha. simpl.
      apply lookup_insert_ne. by intros <-.
    + simpl. split; [done|]. exists td. rewrite lookup_insert_eq.
      split; [done|]. eapply chain_frame; [exact Htd|]. intros a Ha.
      apply lookup_insert_ne. by intros <-.
    + intros td' w' (p' & wf & Hst & Hstat & Hagree & Hlive & Hgone & Hdom).
      injection Hst as <-.
      destruct (Hfilter _ _ _ Hlive Hgone) as [Hlive' Hgone'].
      exists p', (with_list p' w). repeat split; try done.
      * intros a Ha. rewrite Hagree.
        2:{ intros Hin. apply Ha. by right. }
        simpl. apply lookup_insert_ne. intros <-. apply Ha. left.
      * rewrite Hdom. simpl. apply dom_insert_lookup_L. eauto.
  - destruct Hs as (na & Ha & Hna).
    destruct (Hout a eq_refl) as [Ha_rest Ha_tdl].
    assert (Hne : a <> tc_addr r) by (intros ->; apply Ha_rest; left).
    exists (with_heap (insert (tc_addr r)
              (mkKlassNode (tc_tag r) (tc_sig r) td))
              (with_heap (insert a (set_next nx na)) w)).
    split; [|split; [done|split; [|split; [|split]]]].
    + intros B k. unfold bind, load, store_slot, modify, store, ret.
      rewrite Hr. simpl. rewrite Ha. simpl.
      rewrite lookup_insert_ne, Hr by done. simpl.
      unfold bind, load, ret. simpl.
      rewrite lookup_insert_ne, lookup_insert_eq by done. done.
    + eapply chain_frame; [exact Hc|]. intros a' Ha'. simpl.
      rewrite !lookup_insert_ne; [done| |].
      * intros <-. apply Ha_rest. by right.
      * by intros <-.
    + simpl. unfold bind, load, ret. simpl.
      by rewrite lookup_insert_ne, lookup_insert_eq.
    + simpl. split; [done|]. exists td. rewrite lookup_insert_eq.
      split; [done|]. eapply chain_frame; [exact Htd|]. intros a' Ha'.
      rewrite !lookup_insert_ne; [done| |]; by intros <-.
    + intros td' w' (p' & wf & Hst & Hstat & Hagree & Hlive & Hgone & Hdom).
      simpl in Hst. unfold store in Hst. simpl in Hst.
      rewrite lookup_insert_ne, lookup_insert_eq in Hst by done.
      injection Hst as <-.
      destruct (Hfilter _ _ _ Hlive Hgone) as [Hlive' Hgone'].
      exists p', (with_heap (insert a (set_next p' na)) w).
      repeat split; try done.
      * simpl. unfold store. by rewrite Ha.
      * intros a' Ha'. rewrite Hagree.
        2:{ intros Hin. apply Ha'. by right. }
        simpl. destruct (decide (a' = a)) as [->|Hne'].
        -- by rewrite !lookup_insert_eq.
        -- rewrite !lookup_insert_ne;
             first [done | intros <-; apply Ha'; left].
      * rewrite Hdom. simpl.
        rewrite !dom_insert_lookup_L; [done|eauto|].
        rewrite lookup_insert_ne by done. eauto.
Qed.

Lemma processUnloads_loop_outcome env rest :
  forall fuel w s node td ar tdl,
    trackingEnv w = Some env ->
    chain (heap w) node rest ->
    load_slot s w = Done node w ->
    (forall a, s = AddrOfNext a -> (a ∉ addrs rest) /\ (a ∉ addrs tdl)) ->
    chain (heap w) td tdl ->
    (forall a, a ∈ addrs rest -> a ∉ addrs tdl) ->
    match processUnloads_loop fuel td ar node s w with
    | Done td' w' =>
        (length rest <= fuel)%nat /\ first_failure env rest = None /\
        loop_post env w s rest tdl td' w'
    | Exit e msg w' => first_failure env rest = Some (e, msg)
    | Fault => False
    | OutOfFuel => (fuel < length rest)%nat
    end.
Proof.
  induction rest as [|r rest IH]; intros fuel w s node td ar tdl Henv Hc Hs Hout Htd Hdisj.
  - simpl in Hc. subst node.
    assert (processUnloads_loop fuel td ar None s w = Done td w) as ->
      by by destruct fuel.
    split; [simpl; lia|]. split; [done|].
    exists None, w. split; [by apply store_slot_same|]. done.
  - pose proof (chain_NoDup _ _ _ Hc) as Hnd.
    apply NoDup_cons in Hnd as [Hr_notin Hnd].
    simpl in Hc. destruct Hc as (-> & nx & Hr & Hc).
    destruct fuel as [|fuel]; [simpl; lia|].
    cbn [processUnloads_loop first_failure].
    unfold bind at 1. unfold load at 1. rewrite Hr.
    unfold bind at 1. unfold isClassUnloaded, bind at 1, the_trackingEnv.
    rewrite Henv. unfold query_failure. cbn [klass_tag].
    destruct (GetObjectsWithTags env (tc_tag r)) as [error c] eqn:Hq.
    destruct (bool_decide (error = JVMTI_ERROR_NONE)); cbn [negb]; [|done].
    destruct (c =? 0) eqn:Hc0; cbn [negb andb].
    + (* unloaded *)
      unfold ret at 1. cbn beta iota.
      assert (Hdead : unloaded env r = true)
        by (unfold unloaded; by rewrite Hq).
      destruct (unloaded_step env w s r nx rest td tdl)
        as (w2 & Hrun & Henv2 & Hc2 & Hs2 & Htd2 & Hpost); try done.
      rewrite Hrun.
      assert (Hp_tdl : tc_addr r ∉ addrs tdl) by (apply Hdisj; left).
      opose proof (IH fuel w2 s nx (Some (tc_addr r)) true (r :: tdl)
                      _ Hc2 Hs2 _ Htd2 _) as IH'.
      { congruence. }
      { intros a ->. destruct (Hout a eq_refl) as [Ha1 Ha2]. split.
        - intros Hin. apply Ha1. by right.
        - intros [->|Hin]%elem_of_cons; [|done]. apply Ha1. left. }
      { intros a Ha [->|Hin]%elem_of_cons; [done|].
        revert Hin. apply Hdisj. by right. }
      destruct (processUnloads_loop fuel (Some (tc_addr r)) true nx s w2)
        as [td' w'|e msg w'| |]; [|done|done|simpl; lia].
      destruct IH' as (Hlen & Hff & Hpost').
      split; [simpl; lia|]. split; [done|]. by apply Hpost.
    + destruct (c =? 1) eqn:Hc1; cbn [negb andb]; [|done].
      (* still live *)
      unfold ret at 1. cbn beta iota.
      assert (Hlive : unloaded env r = false)
        by (unfold unloaded; by rewrite Hq).
      assert (Hs' : load_slot (AddrOfNext (tc_addr r)) w = Done nx w).
      { simpl. unfold bind, load, ret. by rewrite Hr. }
      unfold bind at 1. rewrite Hs'.
      opose proof (IH fuel w (AddrOfNext (tc_addr r)) nx td ar tdl
                      Henv Hc Hs' _ Htd _) as IH'.
      { intros a [= <-]. split; [done|]. apply Hdisj. left. }
      { intros a Ha. apply Hdisj. by right. }
      destruct (processUnloads_loop fuel td ar nx (AddrOfNext (tc_addr r)) w)
        as [td' w'|e msg w'| |]; [|done|done|simpl; lia].
      destruct IH' as (Hlen & Hff & p' & wf & Hst & Hstat & Hagree & Hlv & Hgone & Hdom).
      split; [simpl; lia|]. split; [done|].
      simpl in Hst. unfold store in Hst. rewrite Hr in Hst.
      injection Hst as <-.
      exists (Some (tc_addr r)), w. split; [by apply store_slot_same|].
      split; [done|]. split; [|split; [|split]].
      * intros a Ha. rewrite Hagree.
        2:{ intros Hin. apply Ha. by right. }
        simpl. apply lookup_insert_ne. intros <-. apply Ha. left.
      * rewrite filter_cons_True
          by (unfold still_live; by rewrite Hlive).
        simpl. split; [done|]. exists p'. split; [|done].
        rewrite Hagree by done. simpl. by rewrite lookup_insert_eq.
      * rewrite filter_cons_False; [done|]. rewrite Hlive. simpl. tauto.
      * done.
Qed.

(** ** A processing pass *)

Lemma query_failure_None env tag :
  query_failure env tag = None <-> answers_liveness env tag.
Proof.
  unfold query_failure, answers_liveness.
  destruct (GetObjectsWithTags env tag) as [error c].
  destruct (bool_decide_reflect (error = JVMTI_ERROR_NONE)) as [->|Hne];
    simpl.
  - destruct (Z.eqb_spec c 0) as [->|H0]; simpl.
    + split; [|done]. intros _. exists 0. auto.
    + destruct (Z.eqb_spec c 1) as [->|H1]; simpl.
      * split; [|done]. intros _. exists 1. auto.
      * split; [done|]. intros (c' & [= <-] & [?|?]); done.
  - split; [done|]. intros (c' & [= ? _] & _). done.
Qed.

Lemma first_failure_None env l :
  first_failure env l = None <->
  Forall (fun r => answers_liveness env (tc_tag r)) l.
Proof.
  induction l as [|r l IH]; simpl.
  - split; [constructor|done].
  - rewrite Forall_cons. rewrite <- query_failure_None.
    destruct (query_failure env (tc_tag r)) as [f|].
    + split; [done|]. by intros [? _].
    + split; [intros Hff|intros [_ Hall]]; [split; [done|]|]; by apply IH.
Qed.

Lemma addr_determines_record l r1 r2 :
  NoDup (addrs l) -> r1 ∈ l -> r2 ∈ l -> tc_addr r1 = tc_addr r2 -> r1 = r2.
Proof.
  induction l as [|r l IH]; intros Hnd H1 H2 Heq.
  - by apply not_elem_of_nil in H1.
  - unfold addrs in Hnd. simpl in Hnd. apply NoDup_cons in Hnd as [Hr Hnd].
    apply elem_of_cons in H1 as [->|H1]; apply elem_of_cons in H2 as [->|H2].
    + done.
    + destruct Hr. rewrite Heq. by apply list_elem_of_fmap_2.
    + destruct Hr. rewrite <- Heq. by apply list_elem_of_fmap_2.
    + by apply IH.
Qed.

Lemma live_not_unloaded env l a :
  NoDup (addrs l) ->
  a ∈ addrs (filter (still_live env) l) ->
  a ∉ addrs (filter (unloaded env) l).
Proof.
  intros Hnd (r1 & -> & [Hl1 Hin1]%list_elem_of_filter)%list_elem_of_fmap
             (r2 & Heq & [Hl2 Hin2]%list_elem_of_filter)%list_elem_of_fmap.
  assert (r1 = r2) as -> by by eapply addr_determines_record.
  unfold still_live in Hl1. by destruct (unloaded env r2).
Qed.

Lemma addrs_filter_subseteq (P : TrackedClass -> Prop)
    `{forall r, Decision (P r)} l a :
  a ∈ addrs (filter P l) -> a ∈ addrs l.
Proof.
  intros (r & -> & [_ Hin]%list_elem_of_filter)%list_elem_of_fmap.
  by apply list_elem_of_fmap_2.
Qed.

(** What a call of [classTrack_processUnloads] comes to, on a
    well-formed registry. *)
Lemma processUnloads_outcome env w l fuel :
  trackingEnv w = Some env ->
  registry w l ->
  match classTrack_processUnloads fuel w with
  | Done sigs w' =>
      (length l <= fuel)%nat /\
      first_failure env l = None /\
      bagCreateBag_ok = true /\
      sigs = map tc_sig (reverse (filter (unloaded env) l)) /\
      registry w' (filter (still_live env) l) /\
      statics w' = statics (with_list (list_ w') w) /\
      (forall a, a ∉ addrs l -> heap w' !! a = heap w !! a) /\
      dom (heap w') =
        dom (heap w) ∖ list_to_set (addrs (filter (unloaded env) l))
  | Exit e msg w' =>
      first_failure env l = Some (e, msg) \/
      (first_failure env l = None /\ e = AGENT_ERROR_OUT_OF_MEMORY /\
       ~ bag_memory)
  | Fault => False
  | OutOfFuel => (fuel < length l)%nat
  end.
Proof.
  intros Henv Hreg. unfold classTrack_processUnloads.
  unfold bind at 1. unfold gets at 1. unfold bind at 1.
  opose proof (processUnloads_loop_outcome env l fuel w AddrOfList (list_ w)
                 None false [] Henv Hreg _ _ _ _) as Hloop;
    [done|done|done|intros a _; apply not_elem_of_nil|].
  destruct (processUnloads_loop fuel None false (list_ w) AddrOfList w)
    as [td w1|e msg w1| |]; [|by left|done|done].
  destruct Hloop as (Hlen & Hff & p' & wf & Hst & Hstat & Hagree & Hlive & Hgone & Hdom).
  injection Hst as <-.
  pose proof (chain_NoDup _ _ _ Hreg) as Hnd.
  unfold deleteList.
  destruct bagCreateBag_ok eqn:Hbag.
  2:{ right. do 2 (split; [done|]). intros [? _]. congruence. }
  pose proof (deleteList_loop_outcome _ fuel td [] w1 Hgone) as Hdel.
  destruct (deleteList_loop fuel td [] w1) as [sigs w'|e msg w'| |].
  - destruct Hdel as (_ & -> & Hstat' & Hheap).
    assert (Hlist : list_ w' = p').
    { apply (f_equal list_) in Hstat, Hstat'. simpl in *. congruence. }
    assert (Hgone_iff : forall a,
      a ∈ addrs (reverse (filter (unloaded env) l) ++ []) <->
      a ∈ addrs (filter (unloaded env) l)).
    { intros a. rewrite app_nil_r. unfold addrs.
      rewrite !list_elem_of_fmap. setoid_rewrite elem_of_reverse. done. }
    repeat split; try done.
    + by rewrite app_nil_r.
    + unfold registry. rewrite Hlist.
      eapply chain_frame; [exact Hlive|]. intros a Ha. rewrite Hheap.
      rewrite decide_False; [done|]. rewrite Hgone_iff.
      by apply live_not_unloaded.
    + rewrite Hstat', Hstat, Hlist. done.
    + intros a Ha. rewrite Hheap. rewrite decide_False.
      * by rewrite Hagree.
      * rewrite Hgone_iff. intros Hin. apply Ha.
        by eapply addrs_filter_subseteq.
    + apply set_eq. intros a.
      rewrite elem_of_difference, elem_of_list_to_set, <- Hdom, !elem_of_dom.
      rewrite Hheap. destruct (decide _) as [Hin|Hnin].
      * rewrite Hgone_iff in Hin. split; [by intros [? ?]|tauto].
      * rewrite Hgone_iff in Hnin. tauto.
  - right. destruct Hdel as (-> & b & Hb). do 2 (split; [done|]).
    intros [_ Hall]. specialize (Hall b). congruence.
  - done.
  - assert (length (reverse (filter (unloaded env) l) ++ []) <= length l)%nat.
    { rewrite app_nil_r, length_reverse. apply length_filter. }
    lia.
Qed.

Lemma first_failure_app_Some env l1 r l2 :
  query_failure env (tc_tag r) <> None ->
  exists f, first_failure env (l1 ++ r :: l2) = Some f /\
            (first_failure env l1 = None -> query_failure env (tc_tag r) = Some f).
Proof.
  intros Hr. induction l1 as [|r1 l1 IH]; simpl.
  - destruct (query_failure env (tc_tag r)) as [f|]; [|done]. eauto.
  - destruct (query_failure env (tc_tag r1)) as [f1|]; [|done].
    exists f1. split; [done|]. done.
Qed.

(** The loop leaves a list of live classes alone. *)
Lemma processUnloads_loop_all_live env rest :
  forall fuel w s node td ar,
    trackingEnv w = Some env ->
    chain (heap w) node rest ->
    Forall (fun r => GetObjectsWithTags env (tc_tag r) = (JVMTI_ERROR_NONE, 1))
           rest ->
    (length rest <= fuel)%nat ->
    processUnloads_loop fuel td ar node s w = Done td w.
Proof.
  induction rest as [|r rest IH]; intros fuel w s node td ar Henv Hc Hall Hfuel.
  - simpl in Hc. subst node. by destruct fuel.
  - simpl in Hc. destruct Hc as (-> & nx & Hr & Hc).
    apply Forall_cons in Hall as [Hq Hall].
    destruct fuel as [|fuel]; [simpl in Hfuel; lia|].
    simpl. unfold bind, load, isClassUnloaded, bind, the_trackingEnv, ret.
    rewrite Hr, Henv. simpl. rewrite Hq. simpl. rewrite Hr. simpl.
    apply IH; [done|done|done|simpl in Hfuel; lia].
Qed.

Lemma live_unloaded_partition env l :
  l ≡ₚ filter (still_live env) l ++ filter (unloaded env) l.
Proof.
  induction l as [|r l IH]; [done|].
  unfold still_live in *. destruct (unloaded env r) eqn:Hr.
  - rewrite filter_cons_False by (rewrite Hr; simpl; tauto).
    rewrite filter_cons_True by (by rewrite Hr).
    rewrite <- Permutation_middle. by constructor.
  - rewrite filter_cons_True by (by rewrite Hr).
    rewrite filter_cons_False by (rewrite Hr; simpl; tauto).
    simpl. by constructor.
Qed.

(** C1.  A processing pass partitions the registry by the oracle's
    answers.  Whatever the registry [l] and whatever the oracle says of
    each tag (a count of 0 or 1), one call of
    [classTrack_processUnloads] returns; the collection it returns holds
    exactly the signatures of the records the oracle reports as no
    longer live, and afterwards the registry holds exactly the records
    reported still live, in their old order.  (The call is given memory
    for the bag, and the loops of the model fuel for [length l] turns.) *)
Theorem processUnloads_partitions env w l fuel :
  trackingEnv w = Some env ->
  registry w l ->
  Forall (fun r => answers_liveness env (tc_tag r)) l ->
  bag_memory ->
  (length l <= fuel)%nat ->
  exists sigs w',
    classTrack_processUnloads fuel w = Done sigs w' /\
    sigs ≡ₚ map tc_sig (filter (unloaded env) l) /\
    registry w' (filter (still_live env) l).
Proof.
  intros Henv Hreg Hall Hmem Hfuel.
  pose proof (processUnloads_outcome env w l fuel Henv Hreg) as Hout.
  apply first_failure_None in Hall.
  destruct (classTrack_processUnloads fuel w) as [sigs w'|e msg w'| |].
  - destruct Hout as (_ & _ & _ & -> & Hreg' & _).
    exists (map tc_sig (reverse (filter (unloaded env) l))), w'.
    split; [done|]. split; [|done].
    apply fmap_Permutation, reverse_Permutation.
  - destruct Hout as [Hff|(_ & _ & Hno)]; [congruence|done].
  - done.
  - lia.
Qed.

(** C3.  A processing pass neither leaks nor duplicates records.  Every
    record of the registry before the call is afterwards either still
    in the registry ([kept]) or stands in the returned collection with
    one copy of its signature ([gone]); no signature is returned that
    did not belong to a record; the nodes of the records that went are
    released, each once, and no other block of the heap is touched. *)
Theorem processUnloads_conserves_records env w l fuel :
  trackingEnv w = Some env ->
  registry w l ->
  Forall (fun r => answers_liveness env (tc_tag r)) l ->
  bag_memory ->
  (length l <= fuel)%nat ->
  let kept := filter (still_live env) l in
  let gone := filter (unloaded env) l in
  exists sigs w',
    classTrack_processUnloads fuel w = Done sigs w' /\
    l ≡ₚ kept ++ gone /\
    registry w' kept /\
    sigs ≡ₚ map tc_sig gone /\
    (forall s, s ∈ sigs -> exists r, r ∈ l /\ tc_sig r = s) /\
    dom (heap w') = dom (heap w) ∖ list_to_set (addrs gone) /\
    (forall a, a ∉ addrs l -> heap w' !! a = heap w !! a).
Proof.
  intros Henv Hreg Hall Hmem Hfuel kept gone.
  pose proof (processUnloads_outcome env w l fuel Henv Hreg) as Hout.
  apply first_failure_None in Hall.
  destruct (classTrack_processUnloads fuel w) as [sigs w'|e msg w'| |].
  - destruct Hout as (_ & _ & _ & -> & Hreg' & _ & Hframe & Hdom).
    exists (map tc_sig (reverse gone)), w'.
    assert (Hperm : map tc_sig (reverse gone) ≡ₚ map tc_sig gone)
      by apply fmap_Permutation, reverse_Permutation.
    repeat split; try done.
    + apply live_unloaded_partition.
    + intros s Hs. rewrite Hperm in Hs.
      apply list_elem_of_fmap in Hs as (r & -> & [_ Hin]%list_elem_of_filter).
      eauto.
  - destruct Hout as [Hff|(_ & _ & Hno)]; [congruence|done].
  - done.
  - lia.
Qed.

(** C4.  A count other than 0 or 1 is fatal.  When the oracle answers
    the query for a tag with the count [c], [isClassUnloaded] says
    "unloaded" for 0, "still live" for 1 and otherwise leaves through
    [EXIT_ERROR]; and a processing pass over a registry that holds a
    record with such a tag does not return: it ends in [EXIT_ERROR], with
    the internal error "Unexpected extra tags" when the queries for the
    records before it were answered with 0 or 1. *)
Theorem extra_tags_are_fatal env w tag c :
  trackingEnv w = Some env ->
  GetObjectsWithTags env tag = (JVMTI_ERROR_NONE, c) ->
  isClassUnloaded tag w =
    (if c =? 0 then Done true w
     else if c =? 1 then Done false w
     else Exit AGENT_ERROR_INTERNAL "Unexpected extra tags in trackingEnv!" w)
  /\
  forall l1 r l2 fuel,
    registry w (l1 ++ r :: l2) ->
    tc_tag r = tag -> c <> 0 -> c <> 1 ->
    (length (l1 ++ r :: l2) <= fuel)%nat ->
    exists e msg w',
      classTrack_processUnloads fuel w = Exit e msg w' /\
      (Forall (fun r1 => answers_liveness env (tc_tag r1)) l1 ->
       e = AGENT_ERROR_INTERNAL /\
       msg = "Unexpected extra tags in trackingEnv!").
Proof.
  intros Henv Hq. split.
  - unfold isClassUnloaded, bind, the_trackingEnv. rewrite Henv, Hq. simpl.
    destruct (c =? 0); [done|]. simpl. by destruct (c =? 1).
  - intros l1 r l2 fuel Hreg Htag Hc0 Hc1 Hfuel.
    assert (Hqf : query_failure env (tc_tag r) =
                  Some (AGENT_ERROR_INTERNAL,
                        "Unexpected extra tags in trackingEnv!")).
    { unfold query_failure. rewrite Htag, Hq. simpl.
      destruct (Z.eqb_spec c 0); [done|]. by destruct (Z.eqb_spec c 1). }
    destruct (first_failure_app_Some env l1 r l2) as (f & Hff & Hfirst);
      [congruence|].
    pose proof (processUnloads_outcome env w _ fuel Henv Hreg) as Hout.
    destruct (classTrack_processUnloads fuel w) as [sigs w'|e msg w'| |].
    + destruct Hout as (_ & Hnone & _). congruence.
    + exists e, msg, w'. split; [done|].
      intros Hl1%first_failure_None. specialize (Hfirst Hl1).
      destruct Hout as [Hout|(Hnone & _)]; [|congruence].
      rewrite Hff in Hout. rewrite Hqf in Hfirst. by simplify_eq.
    + done.
    + lia.
Qed.

(** ** Adding a class *)

Lemma addPreparedClass_insert_outcome klass w :
  match addPreparedClass_insert klass w with
  | Done _ w' =>
      exists node sig env env',
        jvmtiAllocate (heap w) = Some node /\
        classSignature klass = (JVMTI_ERROR_NONE, sig) /\
        trackingEnv w = Some env /\
        SetTag env klass (wrap64 (currentKlassTag w + 1))
          = (JVMTI_ERROR_NONE, env') /\
        w' = inserted w node sig env'
  | Exit e msg w' => failedAsserts w' = failedAsserts w
  | Fault => trackingEnv w = None
  | OutOfFuel => False
  end.
Proof.
  unfold addPreparedClass_insert, EXIT_ERROR, bind at 1, allocate_KlassNode.
  destruct (jvmtiAllocate (heap w)) as [node|] eqn:Halloc; [|done].
  destruct (classSignature klass) as [error sig] eqn:Hsig.
  destruct (bool_decide_reflect (error = JVMTI_ERROR_NONE)) as [->|Hne];
    simpl.
  2:{ unfold bind, jvmtiDeallocate, EXIT_ERROR. simpl. by rewrite lookup_insert_eq. }
  unfold bind, store, pre_increment_currentKlassTag, the_trackingEnv, load,
    modify, gets. cbn.
  repeat (rewrite lookup_insert_eq; cbn).
  destruct (trackingEnv w) as [env|] eqn:Henv; [|done].
  cbn. repeat (rewrite lookup_insert_eq; cbn).
  destruct (SetTag env klass (wrap64 (currentKlassTag w + 1)))
    as [error env'] eqn:Hset.
  destruct (bool_decide_reflect (error = JVMTI_ERROR_NONE)) as [->|Hne];
    simpl.
  2:{ unfold jvmtiDeallocate, EXIT_ERROR. cbn. by rewrite lookup_insert_eq. }
  cbn. repeat (rewrite lookup_insert_eq; cbn).
  exists node, sig, env, env'. repeat split; try done.
  unfold inserted, with_heap, with_list. simpl.
  by rewrite !insert_insert_eq.
Qed.

(** The insertion, when the host plays along. *)
Lemma addPreparedClass_insert_Done klass w env node sig env' :
  trackingEnv w = Some env ->
  jvmtiAllocate (heap w) = Some node ->
  classSignature klass = (JVMTI_ERROR_NONE, sig) ->
  SetTag env klass (wrap64 (currentKlassTag w + 1))
    = (JVMTI_ERROR_NONE, env') ->
  addPreparedClass_insert klass w = Done tt (inserted w node sig env').
Proof.
  intros Henv Halloc Hsig Hset.
  unfold addPreparedClass_insert, bind at 1, allocate_KlassNode.
  rewrite Halloc, Hsig. rewrite bool_decide_eq_true_2 by done. cbn.
  unfold bind, store, pre_increment_currentKlassTag, the_trackingEnv, load,
    modify, gets. cbn.
  repeat (rewrite lookup_insert_eq; cbn).
  rewrite Henv. cbn.
  repeat (rewrite lookup_insert_eq; cbn).
  rewrite Hset. rewrite bool_decide_eq_true_2 by done. cbn.
  repeat (rewrite lookup_insert_eq; cbn).
  unfold inserted, with_heap, with_list. cbn.
  by rewrite !insert_insert_eq.
Qed.

Lemma registry_inserted w l node sig env' :
  registry w l ->
  jvmtiAllocate (heap w) = Some node ->
  registry (inserted w node sig env')
    (mkTrackedClass node (wrap64 (currentKlassTag w + 1)) sig :: l).
Proof.
  intros Hreg Halloc%jvmtiAllocate_fresh. unfold registry. simpl.
  split; [done|]. exists (list_ w). rewrite lookup_insert_eq. split; [done|].
  eapply chain_frame; [exact Hreg|]. intros a Ha.
  apply lookup_insert_ne. intros <-.
  apply list_elem_of_fmap in Ha as (r & Hr & Hin).
  destruct (chain_lookup _ _ _ _ Hreg Hin) as [nx Hnx]. congruence.
Qed.

Lemma bind_Done_inv {A B} (m : M A) (k : A -> M B) w b w' :
  bind m k w = Done b w' ->
  exists x w1, m w = Done x w1 /\ k x w1 = Done b w'.
Proof. unfold bind. destruct (m w); [eauto|done..]. Qed.

Lemma addPreparedClass_check_Done klass w w' :
  addPreparedClass_check klass w = Done tt w' ->
  w' = w \/ w' = with_failedAssert "Attempting to insert duplicate class" w.
Proof.
  unfold addPreparedClass_check, bind, the_trackingEnv.
  destruct (trackingEnv w) as [env|]; [|done].
  destruct (GetTag env klass) as [error tag].
  destruct (negb (bool_decide _)); [done|].
  destruct (negb (tag =? 0)).
  - unfold JDI_ASSERT_FAILED. destruct (assertFatal w); [done|].
    intros [= <-]. by right.
  - intros [= <-]. by left.
Qed.

(** What a call of [classTrack_addPreparedClass] that returns has done. *)
Lemma addPreparedClass_Done_inv klass w w' :
  classTrack_addPreparedClass klass w = Done tt w' ->
  exists w0 node sig env env',
    (w0 = w \/
     w0 = with_failedAssert "Attempting to insert duplicate class" w) /\
    jvmtiAllocate (heap w) = Some node /\
    classSignature klass = (JVMTI_ERROR_NONE, sig) /\
    trackingEnv w = Some env /\
    SetTag env klass (wrap64 (currentKlassTag w + 1))
      = (JVMTI_ERROR_NONE, env') /\
    w' = inserted w0 node sig env'.
Proof.
  unfold classTrack_addPreparedClass.
  intros (on & w1 & [= <- <-] & H)%bind_Done_inv.
  apply bind_Done_inv in H as ([] & w0 & Hcheck & Hins).
  assert (Hw0 : w0 = w \/
    w0 = with_failedAssert "Attempting to insert duplicate class" w).
  { destruct (assertOn w).
    - by eapply addPreparedClass_check_Done.
    - injection Hcheck as <-. by left. }
  pose proof (addPreparedClass_insert_outcome klass w0) as Hout.
  rewrite Hins in Hout.
  destruct Hout as (node & sig & env & env' & Halloc & Hsig & Henv & Hset & ->).
  exists w0, node, sig, env, env'.
  destruct Hw0 as [->| ->]; simpl in *; repeat split; auto.
Qed.

Lemma wrap64_small z : JLONG_MIN <= z <= JLONG_MAX -> wrap64 z = z.
Proof.
  unfold wrap64, JLONG_MIN, JLONG_MAX. intros Hz.
  rewrite Z.mod_small; lia.
Qed.

Lemma wrap64_add_l z1 z2 : wrap64 (wrap64 z1 + z2) = wrap64 (z1 + z2).
Proof.
  unfold wrap64.
  replace ((z1 + 2 ^ 63) mod 2 ^ 64 - 2 ^ 63 + z2 + 2 ^ 63)
    with ((z1 + 2 ^ 63) mod 2 ^ 64 + z2) by lia.
  rewrite Zplus_mod_idemp_l. do 2 f_equal. lia.
Qed.

(** A call of [classTrack_addPreparedClass], when the host plays along
    and the class is not tagged yet. *)
Lemma addPreparedClass_Done klass w env node sig env' :
  trackingEnv w = Some env ->
  (assertOn w = true -> GetTag env klass = (JVMTI_ERROR_NONE, 0)) ->
  jvmtiAllocate (heap w) = Some node ->
  classSignature klass = (JVMTI_ERROR_NONE, sig) ->
  SetTag env klass (wrap64 (currentKlassTag w + 1))
    = (JVMTI_ERROR_NONE, env') ->
  classTrack_addPreparedClass klass w = Done tt (inserted w node sig env').
Proof.
  intros Henv Htag Halloc Hsig Hset.
  unfold classTrack_addPreparedClass, bind at 1, gets, bind at 1.
  assert ((if assertOn w then addPreparedClass_check klass else ret tt) w
          = Done tt w) as ->.
  { destruct (assertOn w); [|done].
    unfold addPreparedClass_check, bind, the_trackingEnv.
    by rewrite Henv, Htag. }
  by eapply addPreparedClass_insert_Done.
Qed.

(** C6.  Adding a class that is not tagged yet pushes a record.  The
    call takes the next tag [++currentKlassTag], fetches the signature,
    tags the class object with the new tag in the tracking environment
    and links a node holding that tag and signature in at the head:
    afterwards the head of the registry is the new record and its tail
    is the registry as it was. *)
Theorem addPreparedClass_pushes_record klass w env node sig env' l :
  trackingEnv w = Some env ->
  (assertOn w = true -> GetTag env klass = (JVMTI_ERROR_NONE, 0)) ->
  jvmtiAllocate (heap w) = Some node ->
  classSignature klass = (JVMTI_ERROR_NONE, sig) ->
  SetTag env klass (wrap64 (currentKlassTag w + 1))
    = (JVMTI_ERROR_NONE, env') ->
  registry w l ->
  let tag := wrap64 (currentKlassTag w + 1) in
  exists w',
    classTrack_addPreparedClass klass w = Done tt w' /\
    heap w' = <[node := mkKlassNode tag sig (list_ w)]> (heap w) /\
    list_ w' = Some node /\
    currentKlassTag w' = tag /\
    trackingEnv w' = Some env' /\
    failedAsserts w' = failedAsserts w /\
    registry w' (mkTrackedClass node tag sig :: l).
Proof.
  intros Henv Htag Halloc Hsig Hset Hreg tag.
  exists (inserted w node sig env'). split.
  - by eapply addPreparedClass_Done.
  - repeat split; try done. by apply registry_inserted.
Qed.

(** C8.  The duplicate check.  With assertions on, adding a class that
    carries a tag other than zero reports "Attempting to insert
    duplicate class" through [JDI_ASSERT_FAILED]; the call ends there
    if assertions are fatal, and otherwise goes on to insert: when the
    host provides the node, the signature and the tagging, a record for
    the class is pushed on the registry although the class is tracked
    already.  When the class's tag is zero the assertion is not
    reached and nothing is reported; the call is the insertion itself,
    and when the host provides the node, the signature and the tagging,
    it returns with the new record, carrying the next tag and the
    class's signature, at the head of the registry and the registry as
    it was behind it. *)
Theorem duplicate_insertion_asserts klass w env tag :
  assertOn w = true ->
  trackingEnv w = Some env ->
  GetTag env klass = (JVMTI_ERROR_NONE, tag) ->
  (tag <> 0 ->
   classTrack_addPreparedClass klass w =
     (if assertFatal w then
        Exit AGENT_ERROR_INTERNAL "Assertion Failed"
             (with_failedAssert "Attempting to insert duplicate class" w)
      else
        addPreparedClass_insert klass
          (with_failedAssert "Attempting to insert duplicate class" w)) /\
   forall node sig env' l,
     assertFatal w = false ->
     jvmtiAllocate (heap w) = Some node ->
     classSignature klass = (JVMTI_ERROR_NONE, sig) ->
     SetTag env klass (wrap64 (currentKlassTag w + 1))
       = (JVMTI_ERROR_NONE, env') ->
     registry w l ->
     exists w',
       classTrack_addPreparedClass klass w = Done tt w' /\
       registry w' (mkTrackedClass node (wrap64 (currentKlassTag w + 1)) sig
                      :: l) /\
       failedAsserts w' =
         failedAsserts w ++ ["Attempting to insert duplicate class"])
  /\
  (tag = 0 ->
   classTrack_addPreparedClass klass w = addPreparedClass_insert klass w /\
   match classTrack_addPreparedClass klass w with
   | Done _ w' | Exit _ _ w' => failedAsserts w' = failedAsserts w
   | Fault | OutOfFuel => False
   end /\
   forall node sig env' l,
     jvmtiAllocate (heap w) = Some node ->
     classSignature klass = (JVMTI_ERROR_NONE, sig) ->
     SetTag env klass (wrap64 (currentKlassTag w + 1))
       = (JVMTI_ERROR_NONE, env') ->
     registry w l ->
     exists w',
       classTrack_addPreparedClass klass w = Done tt w' /\
       registry w' (mkTrackedClass node (wrap64 (currentKlassTag w + 1)) sig
                      :: l) /\
       list_ w' = Some node /\
       currentKlassTag w' = wrap64 (currentKlassTag w + 1) /\
       trackingEnv w' = Some env' /\
       failedAsserts w' = failedAsserts w).
Proof.
  intros Hon Henv Hget.
  assert (Hadd : classTrack_addPreparedClass klass w =
            bind (addPreparedClass_check klass)
                 (fun _ => addPreparedClass_insert klass) w).
  { unfold classTrack_addPreparedClass, bind at 1, gets. by rewrite Hon. }
  assert (Hcheck : addPreparedClass_check klass w =
            if tag =? 0 then Done tt w
            else JDI_ASSERT_FAILED "Attempting to insert duplicate class" w).
  { unfold addPreparedClass_check, bind, the_trackingEnv.
    rewrite Henv, Hget. simpl. by destruct (tag =? 0). }
  split; intros Htag.
  - assert (Heq : classTrack_addPreparedClass klass w =
       (if assertFatal w then
          Exit AGENT_ERROR_INTERNAL "Assertion Failed"
               (with_failedAssert "Attempting to insert duplicate class" w)
        else
          addPreparedClass_insert klass
            (with_failedAssert "Attempting to insert duplicate class" w))).
    { rewrite Hadd. unfold bind. rewrite Hcheck.
      destruct (Z.eqb_spec tag 0); [done|].
      unfold JDI_ASSERT_FAILED. by destruct (assertFatal w). }
    split; [exact Heq|].
    intros node sig env' l Hfatal Halloc Hsig Hset Hreg.
    rewrite Heq, Hfatal.
    exists (inserted (with_failedAssert "Attempting to insert duplicate class" w)
              node sig env').
    split; [by eapply addPreparedClass_insert_Done|].
    split; [|done].
    by apply (registry_inserted (with_failedAssert _ w)).
  - subst tag. assert (Heq : classTrack_addPreparedClass klass w =
                        addPreparedClass_insert klass w).
    { rewrite Hadd. unfold bind. by rewrite Hcheck. }
    split; [done|]. split.
    + rewrite Heq.
      pose proof (addPreparedClass_insert_outcome klass w) as Hout.
      destruct (addPreparedClass_insert klass w) as [[] w'|e msg w'| |];
        [|done|congruence|done].
      by destruct Hout as (? & ? & ? & ? & _ & _ & _ & _ & ->).
    + intros node sig env' l Halloc Hsig Hset Hreg.
      exists (inserted w node sig env'). rewrite Heq.
      split; [by eapply addPreparedClass_insert_Done|].
      split; [by apply registry_inserted|done].
Qed.

(** ** Initialisation and the tag counter *)

Lemma wanted_cons klass classes :
  wanted (klass :: classes) =
  if wanted_class klass then klass :: wanted classes else wanted classes.
Proof.
  unfold wanted. destruct (wanted_class klass) eqn:Hw.
  - by rewrite filter_cons_True by (by rewrite Hw).
  - rewrite filter_cons_False; [done|]. rewrite Hw. simpl. tauto.
Qed.

(** Adding a class, seen from the registry. *)
Lemma addPreparedClass_registry klass w w' l :
  classTrack_addPreparedClass klass w = Done tt w' ->
  registry w l ->
  exists node env',
    registry w' (mkTrackedClass node (wrap64 (currentKlassTag w + 1))
                                (classSignature klass).2 :: l) /\
    currentKlassTag w' = wrap64 (currentKlassTag w + 1) /\
    trackingEnv w' = Some env' /\
    heap w ⊆ heap w'.
Proof.
  intros (w0 & node & sig & env & env' & Hw0 & Halloc & Hsig & Henv & Hset & ->)
         %addPreparedClass_Done_inv Hreg.
  exists node, env'. rewrite Hsig. simpl.
  assert (Hfresh : heap w !! node = None) by by apply jvmtiAllocate_fresh.
  destruct Hw0 as [-> | ->].
  - split; [by apply registry_inserted|]. repeat split; try done.
    by apply insert_subseteq.
  - split; [by apply (registry_inserted (with_failedAssert _ w))|].
    repeat split; try done. by apply insert_subseteq.
Qed.

Lemma seqZ_succ_cons m (n : nat) :
  seqZ m (Z.of_nat (S n)) = m :: seqZ (m + 1) (Z.of_nat n).
Proof.
  rewrite seqZ_cons by lia. f_equal. f_equal; lia.
Qed.

(** The loop of [classTrack_initialize], when it runs to its end. *)
Lemma initialize_loop_Done classes :
  forall w w' l,
    initialize_loop classes w = Done tt w' ->
    registry w l ->
    0 <= currentKlassTag w ->
    currentKlassTag w + Z.of_nat (length (wanted classes)) <= JLONG_MAX ->
    is_Some (trackingEnv w) ->
    exists l',
      registry w' (l' ++ l) /\
      map tc_tag (reverse l') =
        seqZ (currentKlassTag w + 1) (Z.of_nat (length (wanted classes))) /\
      map tc_sig (reverse l') =
        map (fun klass => (classSignature klass).2) (wanted classes) /\
      currentKlassTag w' =
        currentKlassTag w + Z.of_nat (length (wanted classes)) /\
      is_Some (trackingEnv w') /\
      heap w ⊆ heap w'.
Proof.
  induction classes as [|klass classes IH]; intros w w' l Hrun Hreg Hc Hmax Henv.
  - injection Hrun as <-. exists []. simpl. repeat split; try done.
    unfold wanted. simpl. lia.
  - simpl in Hrun. apply bind_Done_inv in Hrun as ([] & w1 & Hadd & Hrun).
    change (negb _) with (wanted_class klass) in Hadd.
    rewrite wanted_cons in *.
    destruct (wanted_class klass).
    + destruct (addPreparedClass_registry _ _ _ _ Hadd Hreg)
        as (node & env' & Hreg1 & Htag1 & Henv1 & Hsub1).
      rewrite wrap64_small in Htag1, Hreg1
        by (unfold JLONG_MIN, JLONG_MAX in *; simpl length in Hmax; lia).
      destruct (IH w1 w' _ Hrun Hreg1) as (l' & Hreg' & Htags & Hsigs & Hc' & Henv' & Hsub');
        [lia|simpl length in Hmax; lia|by rewrite Henv1|].
      exists (l' ++ [mkTrackedClass node (currentKlassTag w + 1)
                                    (classSignature klass).2]).
      rewrite <- app_assoc. split; [done|].
      rewrite reverse_app. simpl length.
      rewrite seqZ_succ_cons. simpl. rewrite Htags, Hsigs, Htag1.
      repeat split; try done; [lia|by etrans].
    + injection Hadd as <-. by apply IH.
Qed.

(** C7.  Initialisation.  [classTrack_initialize] takes a tagging
    environment of its own, empties the registry, sets the counter to
    zero and then adds, by [classTrack_addPreparedClass] and in the
    order of the enumeration, the loaded classes whose status has the
    prepared or the array bit.  When it returns, the registry holds one
    record for each such class, with the class's signature and with the
    tags 1, 2, ... in the order of the enumeration, all distinct.  (The
    enumeration has a [jint] count, so fewer than 2^31 classes.) *)
Theorem initialize_tracks_prepared w w' env0 classes :
  getSpecialJvmti = Some env0 ->
  allLoadedClasses = (JVMTI_ERROR_NONE, classes) ->
  Z.of_nat (length classes) < 2 ^ 31 ->
  classTrack_initialize w = Done tt w' ->
  classTrack_initialize w = initialize_loop classes (reinitialized w env0) /\
  exists l,
    registry w' l /\
    map tc_sig (reverse l) =
      map (fun klass => (classSignature klass).2) (wanted classes) /\
    map tc_tag (reverse l) = seqZ 1 (Z.of_nat (length (wanted classes))) /\
    NoDup (map tc_tag l) /\
    currentKlassTag w' = Z.of_nat (length (wanted classes)) /\
    is_Some (trackingEnv w').
Proof.
  intros Hspecial Hall Hcount Hrun.
  assert (Heq : classTrack_initialize w =
                initialize_loop classes (reinitialized w env0)).
  { unfold classTrack_initialize, bind, modify, gets. simpl.
    rewrite Hspecial, Hall. by rewrite bool_decide_eq_true_2. }
  split; [done|]. rewrite Heq in Hrun.
  assert (Hlen : (length (wanted classes) <= length classes)%nat)
    by apply length_filter.
  destruct (initialize_loop_Done classes _ _ [] Hrun)
    as (l & Hreg & Htags & Hsigs & Hc & Henv & _);
    [done|done|simpl; unfold JLONG_MAX; lia|done|].
  rewrite app_nil_r in Hreg. simpl in Htags, Hc.
  exists l. repeat split; try done.
  assert (Hnd : NoDup (tc_tag <$> reverse l))
    by (change (NoDup (map tc_tag (reverse l))); rewrite Htags;
        apply NoDup_seqZ).
  by rewrite fmap_reverse, reverse_Permutation in Hnd.
Qed.

Lemma allocations_cons c calls :
  allocations (c :: calls) = (if is_add c then 1 else 0) + allocations calls.
Proof.
  unfold allocations. destruct (is_add c) eqn:Hc.
  - rewrite filter_cons_True by (by rewrite Hc). simpl length. lia.
  - rewrite filter_cons_False; [lia|]. rewrite Hc. simpl. tauto.
Qed.

Lemma allocations_nonneg calls : 0 <= allocations calls.
Proof. unfold allocations. lia. Qed.

(** A processing pass that returns keeps the counter and the session,
    and what it leaves in the registry was there before. *)
Lemma processUnloads_Done_inv env w l fuel sigs w' :
  trackingEnv w = Some env ->
  registry w l ->
  classTrack_processUnloads fuel w = Done sigs w' ->
  registry w' (filter (still_live env) l) /\
  currentKlassTag w' = currentKlassTag w /\
  trackingEnv w' = trackingEnv w.
Proof.
  intros Henv Hreg Hrun.
  pose proof (processUnloads_outcome env w l fuel Henv Hreg) as Hout.
  rewrite Hrun in Hout.
  destruct Hout as (_ & _ & _ & _ & Hreg' & Hstat & _).
  split; [done|].
  split; [apply (f_equal currentKlassTag) in Hstat
         |apply (f_equal trackingEnv) in Hstat]; done.
Qed.

Lemma StronglySorted_seqZ m n : StronglySorted Z.lt (seqZ m n).
Proof.
  destruct (Z.le_gt_cases n 0) as [Hn|Hn].
  { rewrite seqZ_nil by done. constructor. }
  rewrite <- (Z2Nat.id n) by lia. generalize (Z.to_nat n) as k.
  intros k. revert m. induction k as [|k IH]; intros m.
  - rewrite seqZ_nil by done. constructor.
  - rewrite seqZ_cons by lia. constructor.
    + replace (Z.pred (Z.of_nat (S k))) with (Z.of_nat k) by lia. apply IH.
    + apply Forall_seqZ. lia.
Qed.

(** What [classTrack_initialize] leaves behind, as far as tags go. *)
Lemma initialize_tags w w0 classes :
  allLoadedClasses = (JVMTI_ERROR_NONE, classes) ->
  classTrack_initialize w = Done tt w0 ->
  Z.of_nat (length (wanted classes)) <= JLONG_MAX ->
  exists l0,
    registry w0 l0 /\
    map tc_tag (reverse l0) = seqZ 1 (Z.of_nat (length (wanted classes))) /\
    currentKlassTag w0 = Z.of_nat (length (wanted classes)) /\
    is_Some (trackingEnv w0).
Proof.
  intros Hall Hinit Hmax.
  assert (exists env0, getSpecialJvmti = Some env0) as [env0 Hspecial].
  { unfold classTrack_initialize, bind, modify, gets in Hinit. simpl in Hinit.
    destruct getSpecialJvmti; [eauto|done]. }
  assert (Heq : classTrack_initialize w =
                initialize_loop classes (reinitialized w env0)).
  { unfold classTrack_initialize, bind, modify, gets. simpl.
    rewrite Hspecial, Hall. by rewrite bool_decide_eq_true_2. }
  rewrite Heq in Hinit.
  destruct (initialize_loop_Done classes _ _ [] Hinit)
    as (l0 & Hreg & Htags & Hsigs & Hc & Henv & _);
    [done|done|simpl; lia|done|].
  rewrite app_nil_r in Hreg. simpl in Htags, Hc.
  change (0 + 1) with 1 in Htags. rewrite Z.add_0_l in Hc.
  by exists l0.
Qed.

(** ** Quiet passes and shutdown *)

Lemma initialize_loop_heap classes :
  forall w w', initialize_loop classes w = Done tt w' -> heap w ⊆ heap w'.
Proof.
  induction classes as [|klass classes IH]; intros w w' Hrun.
  - by injection Hrun as <-.
  - simpl in Hrun. apply bind_Done_inv in Hrun as ([] & w1 & Hadd & Hrun).
    etrans; [|by apply IH]. destruct (negb _).
    + apply addPreparedClass_Done_inv in Hadd
        as (w0 & node & sig & env & env' & Hw0 & Halloc%jvmtiAllocate_fresh & _ & _ & _ & ->).
      destruct Hw0 as [-> | ->]; by apply insert_subseteq.
    + by injection Hadd as <-.
Qed.

(** C5.  A pass over a registry of live classes changes nothing.  When
    the oracle reports every tracked tag as live (count 1), a
    processing pass returns the empty collection and leaves the whole
    state as it was: the records, their order, tags and signatures, and
    the tag counter.  In particular, when the state is the one a call
    of [classTrack_addPreparedClass] has just produced, adding and then
    processing leaves the new class tracked, at the head of the
    registry, and unreported. *)
Theorem processUnloads_all_live env w l fuel :
  trackingEnv w = Some env ->
  registry w l ->
  Forall (fun r => GetObjectsWithTags env (tc_tag r) = (JVMTI_ERROR_NONE, 1))
         l ->
  bagCreateBag_ok = true ->
  (length l <= fuel)%nat ->
  classTrack_processUnloads fuel w = Done [] w /\
  forall klass w0,
    classTrack_addPreparedClass klass w0 = Done tt w ->
    (classTrack_addPreparedClass klass ;;; classTrack_processUnloads fuel) w0
      = Done [] w /\
    exists r l0, l = r :: l0 /\
                 tc_sig r = (classSignature klass).2 /\
                 tc_tag r = currentKlassTag w.
Proof.
  intros Henv Hreg Hlive Hbag Hfuel.
  assert (Hpass : classTrack_processUnloads fuel w = Done [] w).
  { unfold classTrack_processUnloads, bind, gets.
    rewrite (processUnloads_loop_all_live env l) by done.
    unfold deleteList. rewrite Hbag. by destruct fuel. }
  split; [done|]. intros klass w0 Hadd. split.
  - unfold bind. by rewrite Hadd.
  - apply addPreparedClass_Done_inv in Hadd
      as (w1 & node & sig & env1 & env' & Hw1 & _ & Hsig & _ & _ & ->).
    rewrite Hsig. destruct l as [|r l0].
    + unfold registry in Hreg. simpl in Hreg. done.
    + exists r, l0. split; [done|].
      destruct Hreg as ([= Hnode] & nx & Hr & _). simpl in Hr.
      rewrite <- Hnode, lookup_insert_eq in Hr.
      injection Hr as Ht Hs _. simpl. split; [done|].
      rewrite <- Ht. by destruct Hw1 as [-> | ->].
Qed.

(** C9, as amended.  [classTrack_reset] is an empty function: it
    returns and leaves the registry, every node and signature, the tag
    counter and the tagging environment as they were.  Nothing is
    released by a re-initialisation after it either: every block that
    was allocated before it still is afterwards. *)
Theorem classTrack_reset_changes_nothing w :
  classTrack_reset w = Done tt w /\
  forall w',
    (classTrack_reset ;;; classTrack_initialize) w = Done tt w' ->
    heap w ⊆ heap w'.
Proof.
  split; [done|]. intros w' Hrun.
  unfold bind, classTrack_reset, ret in Hrun.
  unfold classTrack_initialize, bind, modify, gets, EXIT_ERROR in Hrun.
  simpl in Hrun. destruct getSpecialJvmti as [env0|]; [|done].
  destruct allLoadedClasses as [error classes].
  destruct (bool_decide _); [|done].
  by apply initialize_loop_heap in Hrun.
Qed.

(** ** Further properties of the module *)

Lemma keeps_statics_refl w : keeps_statics w w.
Proof. by repeat split. Qed.

Lemma keeps_statics_trans w1 w2 w3 :
  keeps_statics w1 w2 -> keeps_statics w2 w3 -> keeps_statics w1 w3.
Proof.
  intros (? & ? & ? & ? & ?) (? & ? & ? & ? & ?).
  repeat split; congruence.
Qed.

Lemma load_Done a w n w' : load a w = Done n w' -> w' = w.
Proof. unfold load. destruct (heap w !! a); [|done]. by intros [= _ <-]. Qed.

Lemma store_Done a f w w' :
  store a f w = Done tt w' -> keeps_statics w w'.
Proof.
  unfold store. destruct (heap w !! a); [|done]. intros [= <-].
  by repeat split.
Qed.

Lemma store_slot_Done s v w w' :
  store_slot s v w = Done tt w' -> keeps_statics w w'.
Proof.
  destruct s as [|a]; simpl.
  - intros [= <-]. by repeat split.
  - apply store_Done.
Qed.

Lemma jvmtiDeallocate_Done a w w' :
  jvmtiDeallocate a w = Done tt w' -> keeps_statics w w'.
Proof.
  unfold jvmtiDeallocate. destruct (heap w !! a); [|done]. intros [= <-].
  by repeat split.
Qed.

Lemma isClassUnloaded_Done tag w b w' :
  isClassUnloaded tag w = Done b w' -> w' = w.
Proof.
  unfold isClassUnloaded, bind, the_trackingEnv.
  destruct (trackingEnv w) as [env|]; [|done].
  destruct (GetObjectsWithTags env tag) as [error c].
  destruct (negb (bool_decide _)); [done|].
  destruct (negb (c =? 0) && negb (c =? 1)); [done|].
  by intros [= _ <-].
Qed.

Lemma deleteList_loop_statics fuel :
  forall node sigs w sigs' w',
    deleteList_loop fuel node sigs w = Done sigs' w' -> keeps_statics w w'.
Proof.
  induction fuel as [|fuel IH]; intros node sigs w sigs' w' Hrun;
    destruct node as [a|];
    cbn [processUnloads_loop deleteList_loop] in Hrun; unfold ret in Hrun;
    try done.
  - injection Hrun as _ <-. apply keeps_statics_refl.
  - destruct (bagAdd_ok sigs); [|done].
    apply bind_Done_inv in Hrun as (n & w1 & ->%load_Done & Hrun).
    apply bind_Done_inv in Hrun as (n' & w2 & ->%load_Done & Hrun).
    apply bind_Done_inv in Hrun as ([] & w3 & Hfree%jvmtiDeallocate_Done & Hrun).
    eapply keeps_statics_trans; [exact Hfree|]. by eapply IH.
  - injection Hrun as _ <-. apply keeps_statics_refl.
Qed.

Lemma processUnloads_loop_statics fuel :
  forall td ar node s w td' w',
    processUnloads_loop fuel td ar node s w = Done td' w' ->
    keeps_statics w w'.
Proof.
  induction fuel as [|fuel IH]; intros td ar node s w td' w' Hrun;
    destruct node as [a|];
    cbn [processUnloads_loop deleteList_loop] in Hrun; unfold ret in Hrun;
    try done.
  - injection Hrun as _ <-. apply keeps_statics_refl.
  - apply bind_Done_inv in Hrun as (n & w1 & ->%load_Done & Hrun).
    apply bind_Done_inv in Hrun as (b & w2 & ->%isClassUnloaded_Done & Hrun).
    destruct b.
    + apply bind_Done_inv in Hrun as (n1 & w3 & ->%load_Done & Hrun).
      apply bind_Done_inv in Hrun as ([] & w4 & H1%store_slot_Done & Hrun).
      apply bind_Done_inv in Hrun as ([] & w5 & H2%store_Done & Hrun).
      apply bind_Done_inv in Hrun as (node' & w6 & [-> _]%load_slot_inv & Hrun).
      eapply keeps_statics_trans; [exact H1|].
      eapply keeps_statics_trans; [exact H2|]. by eapply IH.
    + apply bind_Done_inv in Hrun as (node' & w3 & [-> _]%load_slot_inv & Hrun).
      by eapply IH.
  - injection Hrun as _ <-. apply keeps_statics_refl.
Qed.

Lemma processUnloads_statics fuel w sigs w' :
  classTrack_processUnloads fuel w = Done sigs w' -> keeps_statics w w'.
Proof.
  unfold classTrack_processUnloads.
  intros (node & w1 & [= <- <-] & Hrun)%bind_Done_inv.
  apply bind_Done_inv in Hrun as (td & w2 & Hloop%processUnloads_loop_statics & Hdel).
  unfold deleteList in Hdel. destruct bagCreateBag_ok; [|done].
  apply deleteList_loop_statics in Hdel.
  by eapply keeps_statics_trans.
Qed.

(** X5. A pass that returns has changed neither the tag counter nor the
    tagging environment, and has reported no assertion: whatever the
    state it starts from, [classTrack_processUnloads] writes only to
    the list head and to the nodes. *)
Theorem processUnloads_keeps_counter_and_session fuel w sigs w' :
  classTrack_processUnloads fuel w = Done sigs w' ->
  currentKlassTag w' = currentKlassTag w /\
  trackingEnv w' = trackingEnv w /\
  failedAsserts w' = failedAsserts w.
Proof.
  intros (? & ? & _ & _ & ?)%processUnloads_statics. done.
Qed.

(** X1. The bag a pass returns lists the unloaded classes oldest first:
    it holds the signatures of the unloaded records in the reverse of
    their order in the registry, which runs from the newest record to
    the oldest.  (The loop pushes every unloaded node on the front of
    [toDeleteList], and [deleteList] walks that list from its head.) *)
Theorem processUnloads_reports_oldest_first env w l fuel :
  trackingEnv w = Some env ->
  registry w l ->
  Forall (fun r => answers_liveness env (tc_tag r)) l ->
  bag_memory ->
  (length l <= fuel)%nat ->
  exists w',
    classTrack_processUnloads fuel w
      = Done (map tc_sig (reverse (filter (unloaded env) l))) w'.
Proof.
  intros Henv Hreg Hall Hmem Hfuel.
  pose proof (processUnloads_outcome env w l fuel Henv Hreg) as Hout.
  apply first_failure_None in Hall.
  destruct (classTrack_processUnloads fuel w) as [sigs w'|e msg w'| |].
  - destruct Hout as (_ & _ & _ & -> & _). by exists w'.
  - destruct Hout as [Hff|(_ & _ & Hno)]; [congruence|done].
  - done.
  - lia.
Qed.

(** X2. On a well-formed registry, and whatever the tagging environment
    answers, a pass either returns or takes [EXIT_ERROR]; it never
    reads or frees a block that is not there.  When it exits, the error
    and the message are those of the first record, in list order, whose
    query fails, or else the bag could not be created or grown. *)
Theorem processUnloads_returns_or_exits env w l fuel :
  trackingEnv w = Some env ->
  registry w l ->
  (length l <= fuel)%nat ->
  (exists sigs w', classTrack_processUnloads fuel w = Done sigs w') \/
  (exists e msg w',
      classTrack_processUnloads fuel w = Exit e msg w' /\
      (first_failure env l = Some (e, msg) \/
       (e = AGENT_ERROR_OUT_OF_MEMORY /\ ~ bag_memory))).
Proof.
  intros Henv Hreg Hfuel.
  pose proof (processUnloads_outcome env w l fuel Henv Hreg) as Hout.
  destruct (classTrack_processUnloads fuel w) as [sigs w'|e msg w'| |].
  - left. eauto.
  - right. exists e, msg, w'. split; [done|]. tauto.
  - done.
  - lia.
Qed.

Lemma still_live_count env r :
  answers_liveness env (tc_tag r) ->
  still_live env r = true ->
  GetObjectsWithTags env (tc_tag r) = (JVMTI_ERROR_NONE, 1).
Proof.
  intros (c & Hq & Hc). unfold still_live, unloaded. rewrite Hq. simpl.
  destruct Hc as [-> | ->]; done.
Qed.

(** X3. A pass run again right after a pass that returned, with the
    tagging environment unchanged, returns the empty bag and changes
    nothing. *)
Theorem processUnloads_second_pass_is_quiet env w l fuel :
  trackingEnv w = Some env ->
  registry w l ->
  Forall (fun r => answers_liveness env (tc_tag r)) l ->
  bag_memory ->
  (length l <= fuel)%nat ->
  exists sigs w',
    classTrack_processUnloads fuel w = Done sigs w' /\
    classTrack_processUnloads fuel w' = Done [] w'.
Proof.
  intros Henv Hreg Hall Hmem Hfuel.
  pose proof (processUnloads_outcome env w l fuel Henv Hreg) as Hout.
  pose proof Hall as Hff. apply first_failure_None in Hff.
  destruct (classTrack_processUnloads fuel w) as [sigs w'|e msg w'| |].
  - destruct Hout as (_ & _ & _ & _ & Hreg' & Hstat & _).
    exists sigs, w'. split; [done|].
    assert (Henv' : trackingEnv w' = Some env)
      by (apply (f_equal trackingEnv) in Hstat; simpl in Hstat; congruence).
    unfold classTrack_processUnloads, bind, gets.
    rewrite (processUnloads_loop_all_live env (filter (still_live env) l));
      [| done | done | | ].
    + unfold deleteList. destruct Hmem as [-> _]. by destruct fuel.
    + rewrite Forall_forall in Hall. apply Forall_forall.
      intros r [Hlive Hin]%list_elem_of_filter.
      apply still_live_count; [by apply Hall|].
      by destruct (still_live env r).
    + pose proof (length_filter (still_live env) l). lia.
  - destruct Hout as [Hout|(_ & _ & Hno)]; [congruence|done].
  - done.
  - lia.
Qed.

(** X4. An error of [GetObjectsWithTags] ends the pass: if the query of
    a record fails with a JVMTI error, and the queries of the records
    in front of it are answered with 0 or 1, the pass takes
    [EXIT_ERROR] with that very error code and the message
    "Failed GetObjectsWithTags for class tracking". *)
Theorem query_error_is_fatal env w l1 r l2 fuel error c :
  trackingEnv w = Some env ->
  registry w (l1 ++ r :: l2) ->
  Forall (fun r1 => answers_liveness env (tc_tag r1)) l1 ->
  GetObjectsWithTags env (tc_tag r) = (error, c) ->
  error <> JVMTI_ERROR_NONE ->
  (length (l1 ++ r :: l2) <= fuel)%nat ->
  exists w',
    classTrack_processUnloads fuel w
      = Exit error "Failed GetObjectsWithTags for class tracking" w'.
Proof.
  intros Henv Hreg Hl1 Hq Herr Hfuel.
  assert (Hqf : query_failure env (tc_tag r) =
                Some (error, "Failed GetObjectsWithTags for class tracking")).
  { unfold query_failure. rewrite Hq.
    by rewrite bool_decide_eq_false_2. }
  destruct (first_failure_app_Some env l1 r l2) as (f & Hff & Hfirst);
    [congruence|].
  apply first_failure_None in Hl1. specialize (Hfirst Hl1).
  rewrite Hqf in Hfirst. injection Hfirst as <-.
  pose proof (processUnloads_outcome env w _ fuel Henv Hreg) as Hout.
  destruct (classTrack_processUnloads fuel w) as [sigs w'|e msg w'| |].
  - destruct Hout as (_ & Hnone & _). congruence.
  - destruct Hout as [Hout|(Hnone & _)]; [|congruence].
    rewrite Hff in Hout. injection Hout as <- <-. by exists w'.
  - done.
  - lia.
Qed.

(** X6. [deleteList], given the head of a well-formed list, returns the
    signatures of its nodes in list order, frees each node of the list
    and no other block, and does not write to the list head [list]. *)
Theorem deleteList_releases_the_list w p l fuel :
  chain (heap w) p l ->
  bag_memory ->
  (length l <= fuel)%nat ->
  exists w',
    deleteList fuel p w = Done (map tc_sig l) w' /\
    list_ w' = list_ w /\
    dom (heap w') = dom (heap w) ∖ list_to_set (addrs l) /\
    (forall a, a ∉ addrs l -> heap w' !! a = heap w !! a).
Proof.
  intros Hc [Hbag Hadd] Hfuel. unfold deleteList. rewrite Hbag.
  pose proof (deleteList_loop_outcome l fuel p [] w Hc) as Hout.
  destruct (deleteList_loop fuel p [] w) as [sigs w'|e msg w'| |].
  - destruct Hout as (_ & -> & Hstat & Hheap). exists w'.
    split; [done|]. split; [by apply (f_equal list_) in Hstat|]. split.
    + apply set_eq. intros a.
      rewrite elem_of_difference, elem_of_list_to_set, !elem_of_dom, Hheap.
      destruct (decide (a ∈ addrs l)); [|tauto].
      split; [by intros [? ?]|tauto].
    + intros a Ha. rewrite Hheap. by rewrite decide_False.
  - destruct Hout as (_ & b & Hb). specialize (Hadd b). congruence.
  - done.
  - lia.
Qed.

Lemma addPreparedClass_insert_Exit klass w e msg w' :
  addPreparedClass_insert klass w = Exit e msg w' ->
  heap w' = heap w /\ list_ w' = list_ w /\
  (msg = "SetTag" \/ currentKlassTag w' = currentKlassTag w).
Proof.
  unfold addPreparedClass_insert, EXIT_ERROR, bind at 1, allocate_KlassNode.
  destruct (jvmtiAllocate (heap w)) as [node|] eqn:Halloc.
  2:{ intros [= _ _ <-]. auto. }
  apply jvmtiAllocate_fresh in Halloc.
  destruct (classSignature klass) as [error sig].
  destruct (bool_decide_reflect (error = JVMTI_ERROR_NONE)) as [->|Hne];
    simpl.
  2:{ unfold bind, jvmtiDeallocate. simpl. rewrite lookup_insert_eq.
      intros [= _ _ <-]. simpl.
      rewrite delete_insert_eq, delete_id by done. auto. }
  unfold bind, store, pre_increment_currentKlassTag, the_trackingEnv, load,
    modify, gets. cbn.
  repeat (rewrite lookup_insert_eq; cbn).
  destruct (trackingEnv w) as [env|]; [|done].
  cbn. repeat (rewrite lookup_insert_eq; cbn).
  destruct (SetTag env klass (wrap64 (currentKlassTag w + 1)))
    as [error env'].
  destruct (bool_decide_reflect (error = JVMTI_ERROR_NONE)) as [->|Hne];
    simpl.
  2:{ unfold jvmtiDeallocate. cbn. rewrite lookup_insert_eq.
      intros [= _ <- <-]. simpl.
      rewrite !delete_insert_eq, delete_id by done. auto. }
  cbn. repeat (rewrite lookup_insert_eq; cbn). done.
Qed.

Lemma addPreparedClass_check_Exit klass w e msg w' :
  addPreparedClass_check klass w = Exit e msg w' ->
  heap w' = heap w /\ list_ w' = list_ w /\
  currentKlassTag w' = currentKlassTag w.
Proof.
  unfold addPreparedClass_check, bind, the_trackingEnv, EXIT_ERROR.
  destruct (trackingEnv w) as [env|]; [|done].
  destruct (GetTag env klass) as [error tag].
  destruct (negb (bool_decide _)); [by intros [= _ _ <-]|].
  destruct (negb (tag =? 0)); [|done].
  unfold JDI_ASSERT_FAILED. destruct (assertFatal w); [|done].
  by intros [= _ _ <-].
Qed.

(** X7. A call of [classTrack_addPreparedClass] that takes [EXIT_ERROR]
    (or a fatal assertion) has left the registry as it was and holds no
    block it did not hold before: the node allocated is freed again.
    The counter is as before as well, except when it is [SetTag] that
    failed, which happens after the increment. *)
Theorem addPreparedClass_exit_keeps_registry klass w e msg w' l :
  classTrack_addPreparedClass klass w = Exit e msg w' ->
  registry w l ->
  registry w' l /\ heap w' = heap w /\
  (msg = "SetTag" \/ currentKlassTag w' = currentKlassTag w).
Proof.
  unfold classTrack_addPreparedClass, bind at 1, gets, bind at 1.
  intros Hrun Hreg.
  assert (Hgoal : heap w' = heap w /\ list_ w' = list_ w /\
            (msg = "SetTag" \/ currentKlassTag w' = currentKlassTag w)).
  { destruct ((if assertOn w then addPreparedClass_check klass else ret tt) w)
      as [[] w0|e0 msg0 w0| |] eqn:Hcheck; [| |done|done].
    - assert (Hw0 : w0 = w \/
        w0 = with_failedAssert "Attempting to insert duplicate class" w).
      { destruct (assertOn w).
        - by eapply addPreparedClass_check_Done.
        - injection Hcheck as <-. by left. }
      apply addPreparedClass_insert_Exit in Hrun.
      destruct Hw0 as [-> | ->]; exact Hrun.
    - injection Hrun as <- <- <-.
      destruct (assertOn w); [|done].
      apply addPreparedClass_check_Exit in Hcheck. tauto. }
  destruct Hgoal as (Hheap & Hlist & Htag).
  split; [|done]. unfold registry. by rewrite Hheap, Hlist.
Qed.

Lemma addPreparedClass_returns klass w :
  host_plays_along ->
  is_Some (trackingEnv w) ->
  assertOn w = false \/ assertFatal w = false ->
  exists w',
    classTrack_addPreparedClass klass w = Done tt w' /\
    is_Some (trackingEnv w') /\
    assertOn w' = assertOn w /\ assertFatal w' = assertFatal w.
Proof.
  intros (Halloc & Hsig & Hset & Hget) [env Henv] Hassert.
  assert (exists w0,
    (if assertOn w then addPreparedClass_check klass else ret tt) w
      = Done tt w0 /\
    (w0 = w \/
     w0 = with_failedAssert "Attempting to insert duplicate class" w))
    as (w0 & Hcheck & Hw0).
  { destruct (assertOn w) eqn:Hon; [|exists w; by split; [|left]].
    destruct Hassert as [?|Hfatal]; [done|].
    unfold addPreparedClass_check, bind, the_trackingEnv. rewrite Henv.
    specialize (Hget env klass).
    destruct (GetTag env klass) as [error tag]. simpl in Hget. subst error.
    rewrite bool_decide_eq_true_2 by done. simpl.
    destruct (tag =? 0); simpl.
    - exists w. by split; [|left].
    - unfold JDI_ASSERT_FAILED. rewrite Hfatal. eexists. by split; [|right]. }
  assert (Henv0 : trackingEnv w0 = Some env)
    by (by destruct Hw0 as [-> | ->]).
  destruct (Halloc (heap w0)) as [node Hnode].
  pose proof (Hsig klass) as Hs.
  destruct (classSignature klass) as [e1 sig] eqn:Hsig'. simpl in Hs. subst e1.
  pose proof (Hset env klass (wrap64 (currentKlassTag w0 + 1))) as Ht.
  destruct (SetTag env klass (wrap64 (currentKlassTag w0 + 1)))
    as [e2 env'] eqn:Hset'. simpl in Ht. subst e2.
  exists (inserted w0 node sig env').
  split; [|by destruct Hw0 as [-> | ->]; simpl; eauto].
  unfold classTrack_addPreparedClass, bind at 1, gets, bind at 1.
  rewrite Hcheck. by eapply addPreparedClass_insert_Done.
Qed.

Lemma initialize_loop_returns classes :
  forall w,
    host_plays_along ->
    is_Some (trackingEnv w) ->
    assertOn w = false \/ assertFatal w = false ->
    exists w', initialize_loop classes w = Done tt w'.
Proof.
  induction classes as [|klass classes IH]; intros w Hhost Henv Hassert.
  - by exists w.
  - cbn [initialize_loop]. destruct (negb _).
    + destruct (addPreparedClass_returns klass w Hhost Henv Hassert)
        as (w1 & Hadd & Henv1 & Hon & Hfatal).
      unfold bind. rewrite Hadd. apply IH; [done|done|].
      by rewrite Hon, Hfatal.
    + unfold bind, ret. by apply IH.
Qed.

(** X8. [classTrack_initialize] returns when the host provides the
    tagging environment and the classes, never refuses an allocation, a
    signature or a tag, and assertions are off or not fatal. *)
Theorem initialize_returns w env0 classes :
  getSpecialJvmti = Some env0 ->
  allLoadedClasses = (JVMTI_ERROR_NONE, classes) ->
  host_plays_along ->
  assertOn w = false \/ assertFatal w = false ->
  exists w', classTrack_initialize w = Done tt w'.
Proof.
  intros Hspecial Hall Hhost Hassert.
  unfold classTrack_initialize, bind, modify, gets. simpl.
  rewrite Hspecial, Hall. rewrite bool_decide_eq_true_2 by done.
  apply initialize_loop_returns; [done|by eexists|done].
Qed.

(** X9. The status test of [classTrack_initialize],
    [(status & (PREPARED|ARRAY)) != 0], holds exactly when bit 1
    (prepared) or bit 4 (array) of the status is set; the other status
    bits have no influence. *)
Theorem wanted_class_bits klass :
  wanted_class klass = true <->
  Z.testbit (classStatus klass) 1 = true \/
  Z.testbit (classStatus klass) 4 = true.
Proof.
  unfold wanted_class, JVMTI_CLASS_STATUS_PREPARED, JVMTI_CLASS_STATUS_ARRAY.
  change (Z.lor 2 16) with 18.
  generalize (classStatus klass) as s. intros s.
  rewrite negb_true_iff, Z.eqb_neq. split.
  - intros Hne.
    destruct (Z.testbit s 1) eqn:H1; [by left|].
    destruct (Z.testbit s 4) eqn:H4; [by right|].
    destruct Hne. apply Z.bits_inj'. intros n Hn.
    rewrite Z.land_spec, Z.bits_0.
    destruct (decide (n = 1)) as [->|?]; [by rewrite H1|].
    destruct (decide (n = 4)) as [->|?]; [by rewrite H4|].
    replace (Z.testbit 18 n) with false; [apply andb_false_r|].
    destruct n as [|n|n]; [done| |lia].
    destruct n as [[[n|n|]|[n|n|]|]|[[n|n|]|[[n|n|]|[n|n|]|]|]|]; try done; lia.
  - intros [H|H] Hz; apply (f_equal (fun z => Z.testbit z 1)) in Hz as H1;
      apply (f_equal (fun z => Z.testbit z 4)) in Hz;
      rewrite Z.land_spec, Z.bits_0 in *; rewrite H in *; done.
Qed.

(** [classTrack_initialize], once it has reset the statics, is a run of
    [classTrack_addPreparedClass] over the wanted classes. *)
Lemma initialize_loop_run classes :
  forall w w',
    initialize_loop classes w = Done tt w' ->
    exists ts0,
      forall calls ts w'',
        run calls w' = Done ts w'' ->
        run ((AddPreparedClass <$> wanted classes) ++ calls) w
          = Done (ts0 ++ ts) w''.
Proof.
  induction classes as [|klass classes IH]; intros w w' Hrun.
  - injection Hrun as <-. by exists [].
  - cbn [initialize_loop] in Hrun.
    apply bind_Done_inv in Hrun as ([] & w1 & Hadd & Hrun).
    change (negb _) with (wanted_class klass) in Hadd.
    rewrite wanted_cons. destruct (IH _ _ Hrun) as [ts0 Hts0].
    destruct (wanted_class klass).
    + pose proof Hadd as Hinv.
      apply addPreparedClass_Done_inv in Hinv
        as (w0 & node & sig & env & env' & _ & _ & _ & _ & _ & ->).
      exists (wrap64 (currentKlassTag w0 + 1) :: ts0).
      intros calls ts w'' Hcalls.
      rewrite fmap_cons. cbn [app run]. unfold bind at 1. rewrite Hadd.
      unfold bind at 1.
      assert (newest_tag (inserted w0 node sig env')
              = Done (wrap64 (currentKlassTag w0 + 1))
                     (inserted w0 node sig env')) as ->.
      { unfold newest_tag, bind, gets, load, ret. simpl.
        by rewrite lookup_insert_eq. }
      unfold bind at 1. by rewrite (Hts0 _ _ _ Hcalls).
    + injection Hadd as <-. by exists ts0.
Qed.

Lemma initialize_run w w0 classes calls ts w' :
  allLoadedClasses = (JVMTI_ERROR_NONE, classes) ->
  classTrack_initialize w = Done tt w0 ->
  run calls w0 = Done ts w' ->
  exists env0 ts0,
    run ((AddPreparedClass <$> wanted classes) ++ calls) (reinitialized w env0)
      = Done (ts0 ++ ts) w'.
Proof.
  intros Hall Hinit Hrun.
  unfold classTrack_initialize, bind, modify, gets in Hinit. simpl in Hinit.
  destruct getSpecialJvmti as [env0|]; [|done].
  rewrite Hall in Hinit. rewrite bool_decide_eq_true_2 in Hinit by done.
  destruct (initialize_loop_run _ _ _ Hinit) as [ts0 Hts0].
  exists env0, ts0. by apply Hts0.
Qed.

Lemma owns_filter env l :
  NoDup (addrs l) ->
  list_to_set (addrs l) ∖ list_to_set (addrs (filter (unloaded env) l))
    =@{gset addr} list_to_set (addrs (filter (still_live env) l)).
Proof.
  intros Hnd. apply set_eq. intros a.
  rewrite elem_of_difference, !elem_of_list_to_set. split.
  - intros [(r & -> & Hin)%list_elem_of_fmap Hnot].
    apply list_elem_of_fmap_2, list_elem_of_filter. split; [|done].
    unfold still_live. destruct (unloaded env r) eqn:Hr; [|done].
    destruct Hnot. apply list_elem_of_fmap_2, list_elem_of_filter.
    split; [by rewrite Hr|done].
  - intros Hin. split; [by eapply addrs_filter_subseteq|].
    by apply live_not_unloaded.
Qed.

Lemma run_owns calls :
  forall w l ts w',
    owns w l ->
    run calls w = Done ts w' ->
    exists l', owns w' l'.
Proof.
  induction calls as [|c calls IH]; intros w l ts w' Hown Hrun.
  - injection Hrun as _ <-. by exists l.
  - destruct Hown as (Hreg & Hdom & Henv).
    destruct c as [klass|fuel|f]; cbn [run] in Hrun.
    + apply bind_Done_inv in Hrun as ([] & w1 & Hadd & Hrun).
      apply bind_Done_inv in Hrun as (t & w1' & Hnew & Hrun).
      apply bind_Done_inv in Hrun as (ts' & w2 & Hrun & [= _ <-]).
      assert (w1' = w1) as ->.
      { unfold newest_tag, bind, gets in Hnew.
        destruct (list_ w1); [|done].
        apply bind_Done_inv in Hnew as (n & w3 & ->%load_Done & [= _ <-]).
        done. }
      apply addPreparedClass_Done_inv in Hadd
        as (w0 & node & sig & env & env' & Hw0 & Halloc & _ & _ & _ & ->).
      assert (Hreg0 : registry w0 l /\ heap w0 = heap w
                      /\ currentKlassTag w0 = currentKlassTag w)
        by (by destruct Hw0 as [-> | ->]).
      destruct Hreg0 as (Hreg0 & Hheap0 & Hc0). rewrite <- Hheap0 in Halloc.
      eapply IH; [|exact Hrun]. split; [by apply registry_inserted|].
      split; [|by eexists]. unfold inserted. cbn [heap].
      rewrite dom_insert_L, Hheap0, Hdom.
      change (addrs (?r :: l)) with (tc_addr r :: addrs l).
      by rewrite list_to_set_cons.
    + apply bind_Done_inv in Hrun as (sigs & w1 & Hproc & Hrun).
      destruct Henv as [env Henv].
      pose proof (processUnloads_outcome env w l fuel Henv Hreg) as Hout.
      rewrite Hproc in Hout.
      destruct Hout as (_ & _ & _ & _ & Hreg1 & Hstat & _ & Hdom1).
      eapply IH; [|exact Hrun]. split; [exact Hreg1|]. split.
      * rewrite Hdom1, Hdom. apply owns_filter. by eapply chain_NoDup.
      * apply (f_equal trackingEnv) in Hstat. simpl in Hstat.
        rewrite Hstat, Henv. by eexists.
    + apply bind_Done_inv in Hrun as ([] & w1 & [= <-] & Hrun).
      eapply IH; [|exact Hrun]. split; [done|]. split; [done|].
      simpl. destruct Henv as [env ->]. by eexists.
Qed.

(** X10. The tracker holds on to no block outside its list: started on
    an empty heap, after [classTrack_initialize] and any calls of
    [classTrack_addPreparedClass] and [classTrack_processUnloads] that
    return, the allocated blocks are exactly the nodes of the
    registry. *)
Theorem tracker_owns_every_node w w0 classes calls ts w' :
  allLoadedClasses = (JVMTI_ERROR_NONE, classes) ->
  heap w = ∅ ->
  classTrack_initialize w = Done tt w0 ->
  run calls w0 = Done ts w' ->
  exists l,
    registry w' l /\ dom (heap w') = list_to_set (addrs l).
Proof.
  intros Hall Hempty Hinit Hrun.
  destruct (initialize_run _ _ _ _ _ _ Hall Hinit Hrun) as (env0 & ts0 & Hall_run).
  assert (Hown : owns (reinitialized w env0) []).
  { split; [done|]. split; [|by eexists]. simpl. rewrite Hempty.
    by rewrite dom_empty_L. }
  destruct (run_owns _ _ _ _ _ Hown Hall_run) as (l & Hreg & Hdom & _).
  by exists l.
Qed.

Lemma StronglySorted_map_filter (R : Z -> Z -> Prop)
    (P : TrackedClass -> Prop) `{forall r, Decision (P r)} l :
  StronglySorted R (map tc_tag l) ->
  StronglySorted R (map tc_tag (filter P l)).
Proof.
  induction l as [|r l IH]; [done|]. simpl.
  intros [Hl Hr]%StronglySorted_inv.
  destruct (decide (P r)) as [Hp|Hp].
  - rewrite filter_cons_True by done. simpl. constructor; [by apply IH|].
    rewrite Forall_forall in Hr. apply Forall_forall. intros t Ht.
    apply Hr. apply list_elem_of_fmap in Ht as (r' & -> & [_ Hin]%list_elem_of_filter).
    by apply list_elem_of_fmap_2.
  - rewrite filter_cons_False by done. by apply IH.
Qed.

Lemma StronglySorted_gt_NoDup (ts : list Z) :
  StronglySorted Z.gt ts -> NoDup ts.
Proof.
  induction 1 as [|t ts _ IH Hall]; constructor; [|done].
  intros Hin. rewrite Forall_forall in Hall. specialize (Hall _ Hin). lia.
Qed.

Lemma allocations_app calls1 calls2 :
  allocations (calls1 ++ calls2) = allocations calls1 + allocations calls2.
Proof.
  unfold allocations. rewrite filter_app, length_app. lia.
Qed.

Lemma allocations_adds (classes : list jclass) :
  allocations (AddPreparedClass <$> classes) = Z.of_nat (length classes).
Proof.
  induction classes as [|klass classes IH]; [done|].
  rewrite fmap_cons, allocations_cons, IH. simpl is_add. cbv iota. rewrite length_cons. lia.
Qed.

Lemma run_newest_first calls :
  forall w n ts w',
    newest_first n w ->
    run calls w = Done ts w' ->
    n + allocations calls <= JLONG_MAX ->
    newest_first (n + allocations calls) w'.
Proof.
  induction calls as [|c calls IH]; intros w n ts w' Hinv Hrun Hmax.
  - injection Hrun as _ <-.
    by replace (n + allocations []) with n by (unfold allocations; simpl; lia).
  - rewrite allocations_cons in *. pose proof (allocations_nonneg calls).
    destruct Hinv as (l & Hreg & Hn & Hpos & Htags & Hsorted & Henv).
    destruct c as [klass|fuel|f]; cbn [run] in Hrun; simpl is_add in *;
      cbv iota in *.
    + apply bind_Done_inv in Hrun as ([] & w1 & Hadd & Hrun).
      apply bind_Done_inv in Hrun as (t & w1' & Hnew & Hrun).
      apply bind_Done_inv in Hrun as (ts' & w2 & Hrun & [= _ <-]).
      destruct (addPreparedClass_registry _ _ _ _ Hadd Hreg)
        as (node & env' & Hreg1 & Htag1 & Henv1 & _).
      rewrite Hn in *.
      rewrite wrap64_small in Htag1, Hreg1
        by (unfold JLONG_MIN, JLONG_MAX in *; lia).
      assert (w1' = w1) as ->.
      { unfold newest_tag, bind, gets in Hnew.
        destruct (list_ w1); [|done].
        apply bind_Done_inv in Hnew as (n0 & w3 & ->%load_Done & [= _ <-]).
        done. }
      replace (n + (1 + allocations calls))
        with (n + 1 + allocations calls) by lia.
      apply (IH w1 (n + 1) ts' w2); [|done|lia].
      exists (mkTrackedClass node (n + 1) (classSignature klass).2 :: l).
      split; [done|]. split; [done|]. split; [lia|].
      split; [|split; [|by rewrite Henv1]].
      * constructor; [simpl; lia|].
        eapply Forall_impl; [exact Htags|]. simpl. intros; lia.
      * simpl. constructor; [done|].
        apply Forall_forall. intros t' (r & -> & Hin)%list_elem_of_fmap.
        rewrite Forall_forall in Htags. specialize (Htags _ Hin). lia.
    + apply bind_Done_inv in Hrun as (sigs & w1 & Hproc & Hrun).
      destruct Henv as [env Henv].
      destruct (processUnloads_Done_inv _ _ _ _ _ _ Henv Hreg Hproc)
        as (Hreg1 & Hc1 & Henv1).
      apply (IH w1 n ts w'); [|done|lia].
      exists (filter (still_live env) l).
      split; [done|]. split; [congruence|]. split; [done|].
      split; [|split; [|rewrite Henv1, Henv; eauto]].
      * rewrite Forall_forall in Htags. apply Forall_forall.
        intros r [_ Hin]%list_elem_of_filter. by apply Htags.
      * by apply StronglySorted_map_filter.
    + apply bind_Done_inv in Hrun as ([] & w1 & [= <-] & Hrun).
      apply (IH _ n) in Hrun; [done| |lia].
      exists l. split; [done|]. split; [done|]. split; [done|].
      split; [done|]. split; [done|].
      simpl. destruct Henv as [env ->]. simpl. eauto.
Qed.

(** X11. The list is kept newest first: after [classTrack_initialize]
    and any calls that return, as long as at most 2^63 - 1 tags have
    been allocated, the tags of the registry fall strictly from its
    head to its end (so they are pairwise distinct), none is above the
    counter, and the counter is the number of tags allocated so far. *)
Theorem registry_is_newest_first w w0 classes calls ts w' :
  allLoadedClasses = (JVMTI_ERROR_NONE, classes) ->
  classTrack_initialize w = Done tt w0 ->
  run calls w0 = Done ts w' ->
  Z.of_nat (length (wanted classes)) + allocations calls <= JLONG_MAX ->
  exists l,
    registry w' l /\
    StronglySorted Z.gt (map tc_tag l) /\
    NoDup (map tc_tag l) /\
    Forall (fun r => tc_tag r <= currentKlassTag w') l /\
    currentKlassTag w' =
      Z.of_nat (length (wanted classes)) + allocations calls.
Proof.
  intros Hall Hinit Hrun Hmax.
  destruct (initialize_run _ _ _ _ _ _ Hall Hinit Hrun)
    as (env0 & ts0 & Hall_run).
  apply (run_newest_first _ _ 0) in Hall_run.
  - rewrite allocations_app, allocations_adds in Hall_run.
    destruct Hall_run as (l & Hreg & Hc & _ & Htags & Hsorted & _).
    exists l. split; [done|]. split; [done|].
    split; [by apply StronglySorted_gt_NoDup|].
    split; [|rewrite Hc; lia].
    eapply Forall_impl; [exact Htags|]. simpl. intros; lia.
  - exists []. split; [done|]. split; [done|]. split; [done|].
    split; [constructor|]. split; [constructor|by eexists].
  - rewrite allocations_app, allocations_adds. lia.
Qed.

Lemma run_wrapped calls :
  forall w z ts w',
    currentKlassTag w = wrap64 z ->
    run calls w = Done ts w' ->
    ts = wrap64 <$> seqZ (z + 1) (allocations calls) /\
    currentKlassTag w' = wrap64 (z + allocations calls).
Proof.
  induction calls as [|c calls IH]; intros w z ts w' Hz Hrun.
  - injection Hrun as <- <-. split; [done|].
    by replace (z + allocations []) with z by (unfold allocations; simpl; lia).
  - rewrite allocations_cons. pose proof (allocations_nonneg calls).
    destruct c as [klass|fuel|f]; cbn [run] in Hrun; simpl is_add;
      cbv iota.
    + apply bind_Done_inv in Hrun as ([] & w1 & Hadd & Hrun).
      apply bind_Done_inv in Hrun as (t & w1' & Hnew & Hrun).
      apply bind_Done_inv in Hrun as (ts' & w2 & Hrun & [= <- <-]).
      apply addPreparedClass_Done_inv in Hadd
        as (w0 & node & sig & env & env' & Hw0 & _ & _ & _ & _ & ->).
      assert (Hc0 : currentKlassTag w0 = wrap64 z)
        by (by destruct Hw0 as [-> | ->]).
      assert (Hc1 : currentKlassTag (inserted w0 node sig env')
                    = wrap64 (z + 1)).
      { unfold inserted. cbn [currentKlassTag].
        by rewrite Hc0, wrap64_add_l. }
      assert (Ht : t = wrap64 (z + 1) /\ w1' = inserted w0 node sig env').
      { clear Hrun. unfold newest_tag, bind, gets, load, ret in Hnew.
        unfold inserted in Hnew. cbn [list_ heap] in Hnew.
        rewrite lookup_insert_eq in Hnew. cbn in Hnew.
        injection Hnew as <- <-. split; [|done].
        by rewrite Hc0, wrap64_add_l. }
      destruct Ht as [-> ->].
      destruct (IH _ (z + 1) _ _ Hc1 Hrun) as [-> Hc'].
      split.
      * rewrite (seqZ_cons (z + 1)) by lia. rewrite fmap_cons.
        do 3 f_equal; lia.
      * rewrite Hc'. f_equal; lia.
    + apply bind_Done_inv in Hrun as (sigs & w1 & Hproc & Hrun).
      apply processUnloads_statics in Hproc as (Hc1 & _).
      destruct (IH w1 z _ _ ltac:(congruence) Hrun) as [-> Hc'].
      split; [done|]. rewrite Hc'. f_equal; lia.
    + apply bind_Done_inv in Hrun as ([] & w1 & [= <-] & Hrun).
      destruct (IH _ z _ _ (Hz : currentKlassTag (with_trackingEnv _ w) = _) Hrun) as [-> Hc'].
      split; [done|]. rewrite Hc'. f_equal; lia.
Qed.

Lemma wrap64_inj_window z1 z2 :
  - 2 ^ 64 < z1 - z2 < 2 ^ 64 -> wrap64 z1 = wrap64 z2 -> z1 = z2.
Proof.
  unfold wrap64. intros Hwin Heq.
  pose proof (Z.div_mod (z1 + 2 ^ 63) (2 ^ 64)) as H1.
  pose proof (Z.div_mod (z2 + 2 ^ 63) (2 ^ 64)) as H2.
  assert ((z1 + 2 ^ 63) mod 2 ^ 64 = (z2 + 2 ^ 63) mod 2 ^ 64) as Hmod by lia.
  rewrite Hmod in H1. lia.
Qed.

Lemma wrap64_nonzero z : 1 <= z < 2 ^ 64 -> wrap64 z <> 0.
Proof.
  intros Hz Heq. apply (wrap64_inj_window z 0) in Heq; lia.
Qed.

Lemma seqZ_wrap64_small m n :
  1 <= m -> m + n <= 2 ^ 63 -> wrap64 <$> seqZ m n = seqZ m n.
Proof.
  intros Hm Hn. rewrite <- (list_fmap_id (seqZ m n)) at 2.
  apply list_fmap_ext. intros i t [-> Hi]%lookup_seqZ.
  apply wrap64_small. unfold JLONG_MIN, JLONG_MAX. unfold id. lia.
Qed.

(** X12. The bound of the header comment: as long as fewer than 2^64
    tags are allocated after [classTrack_initialize], the tags handed
    out, wrapped around or not, are pairwise distinct and none is 0,
    the tag of an untagged object. *)
Theorem tags_never_repeat_below_2_64 w w0 classes calls ts w' :
  allLoadedClasses = (JVMTI_ERROR_NONE, classes) ->
  Z.of_nat (length classes) < 2 ^ 31 ->
  classTrack_initialize w = Done tt w0 ->
  run calls w0 = Done ts w' ->
  Z.of_nat (length (wanted classes)) + allocations calls < 2 ^ 64 ->
  exists l0,
    registry w0 l0 /\
    NoDup (map tc_tag (reverse l0) ++ ts) /\
    0 ∉ map tc_tag (reverse l0) ++ ts.
Proof.
  intros Hall Hcount Hinit Hrun Hmax.
  pose proof (allocations_nonneg calls) as Hnn.
  assert (Hlen : (length (wanted classes) <= length classes)%nat)
    by apply length_filter.
  destruct (initialize_tags w w0 classes Hall Hinit)
    as (l0 & Hreg & Htags & Hc & _); [unfold JLONG_MAX; lia|].
  destruct (run_wrapped calls w0 (Z.of_nat (length (wanted classes))) ts w')
    as [-> _]; [|done|].
  { rewrite Hc. symmetry. apply wrap64_small.
    unfold JLONG_MIN, JLONG_MAX. lia. }
  exists l0. split; [done|].
  assert (Happ : map tc_tag (reverse l0) ++
                 (wrap64 <$> seqZ (Z.of_nat (length (wanted classes)) + 1)
                                  (allocations calls)) =
                 wrap64 <$> seqZ 1 (Z.of_nat (length (wanted classes))
                                    + allocations calls)).
  { rewrite Htags, seqZ_app, fmap_app by lia.
    rewrite (seqZ_wrap64_small 1) by lia. do 3 f_equal. lia. }
  rewrite Happ. split.
  - apply NoDup_fmap_2_strong; [|apply NoDup_seqZ].
    intros z1 z2 H1%elem_of_seqZ H2%elem_of_seqZ.
    apply wrap64_inj_window. lia.
  - intros (z & Hz & Hin%elem_of_seqZ)%list_elem_of_fmap.
    symmetry in Hz. revert Hz. apply wrap64_nonzero. lia.
Qed.

(** ** The tag counter, wrapped around or not *)

Lemma newest_tag_inserted w node sig env' :
  newest_tag (inserted w node sig env')
  = Done (wrap64 (currentKlassTag w + 1)) (inserted w node sig env').
Proof.
  unfold newest_tag, bind, gets, load, ret. simpl.
  by rewrite lookup_insert_eq.
Qed.

Lemma run_app calls1 :
  forall calls2 w ts1 w1 ts2 w2,
    run calls1 w = Done ts1 w1 ->
    run calls2 w1 = Done ts2 w2 ->
    run (calls1 ++ calls2) w = Done (ts1 ++ ts2) w2.
Proof.
  induction calls1 as [|c calls1 IH]; intros calls2 w ts1 w1 ts2 w2 H1 H2.
  - by injection H1 as <- <-.
  - destruct c as [klass|fuel|f]; cbn [app run] in *.
    + apply bind_Done_inv in H1 as ([] & wa & Hadd & H1).
      apply bind_Done_inv in H1 as (t & wb & Hnew & H1).
      apply bind_Done_inv in H1 as (ts' & wc & H1 & [= <- <-]).
      unfold bind at 1. rewrite Hadd. unfold bind at 1. rewrite Hnew.
      unfold bind at 1. by rewrite (IH _ _ _ _ _ _ H1 H2).
    + apply bind_Done_inv in H1 as (sigs & wa & Hproc & H1).
      unfold bind at 1. rewrite Hproc. by apply (IH _ _ _ _ _ _ H1 H2).
    + apply bind_Done_inv in H1 as ([] & wa & [= <-] & H1).
      unfold bind at 1, modify. by apply (IH _ _ _ _ _ _ H1 H2).
Qed.

(** A run of insertions only: the records pushed carry, from the oldest
    to the newest, the tags the run hands out. *)
Lemma run_adds_registry classes :
  forall w l ts w',
    registry w l ->
    run (AddPreparedClass <$> classes) w = Done ts w' ->
    exists l', registry w' (l' ++ l) /\ map tc_tag (reverse l') = ts.
Proof.
  induction classes as [|klass classes IH]; intros w l ts w' Hreg Hrun.
  - injection Hrun as <- <-. by exists [].
  - rewrite fmap_cons in Hrun. cbn [run] in Hrun.
    apply bind_Done_inv in Hrun as ([] & w1 & Hadd & Hrun).
    apply bind_Done_inv in Hrun as (t & w1' & Hnew & Hrun).
    apply bind_Done_inv in Hrun as (ts' & w2 & Hrun & [= <- <-]).
    destruct (addPreparedClass_registry _ _ _ _ Hadd Hreg)
      as (node & env' & Hreg1 & _).
    assert (t = wrap64 (currentKlassTag w + 1) /\ w1' = w1) as [-> ->].
    { unfold newest_tag, bind, gets, load, ret in Hnew.
      destruct Hreg1 as (Hhead & nx & Hnode & _). simpl in *.
      rewrite Hhead, Hnode in Hnew. by injection Hnew as <- <-. }
    destruct (IH _ _ _ _ Hreg1 Hrun) as (l' & Hreg' & Htags).
    exists (l' ++ [mkTrackedClass node (wrap64 (currentKlassTag w + 1))
                                  (classSignature klass).2]).
    split; [by rewrite <- app_assoc|].
    by rewrite reverse_app, reverse_singleton, <- Htags.
Qed.

(** All the tags handed out since the counter was reset, in the order
    of allocation: the counter's values 1, 2, 3, ..., wrapped around. *)
Lemma handed_out_tags w w0 classes calls ts w' :
  allLoadedClasses = (JVMTI_ERROR_NONE, classes) ->
  classTrack_initialize w = Done tt w0 ->
  run calls w0 = Done ts w' ->
  exists l0,
    registry w0 l0 /\
    map tc_tag (reverse l0) ++ ts =
      wrap64 <$> seqZ 1 (Z.of_nat (length (wanted classes))
                         + allocations calls).
Proof.
  intros Hall Hinit Hrun.
  pose proof (allocations_nonneg calls) as Hnn.
  unfold classTrack_initialize, bind, modify, gets in Hinit. simpl in Hinit.
  destruct getSpecialJvmti as [env0|]; [|done].
  rewrite Hall in Hinit. rewrite bool_decide_eq_true_2 in Hinit by done.
  destruct (initialize_loop_run _ _ _ Hinit) as [ts0 Hts0].
  specialize (Hts0 [] [] w0 eq_refl). rewrite !app_nil_r in Hts0.
  assert (Hnil : registry (reinitialized w env0) []) by done.
  destruct (run_adds_registry _ _ [] _ _ Hnil Hts0) as (l0 & Hreg0 & Htags0).
  rewrite app_nil_r in Hreg0.
  assert (Hzero : currentKlassTag (reinitialized w env0) = wrap64 0)
    by (vm_compute; reflexivity).
  destruct (run_wrapped _ _ 0 _ _ Hzero Hts0) as [Hts0' Hc0].
  rewrite allocations_adds in Hts0', Hc0.
  destruct (run_wrapped _ _ _ _ _ Hc0 Hrun) as [-> _].
  exists l0. split; [done|].
  rewrite Htags0, Hts0', seqZ_app, fmap_app by lia. do 3 f_equal; lia.
Qed.

Lemma run_tags_wrapped calls :
  forall w z ts w',
    tags_wrapped z w ->
    run calls w = Done ts w' ->
    tags_wrapped (z + allocations calls) w'.
Proof.
  induction calls as [|c calls IH]; intros w z ts w' Hinv Hrun.
  - injection Hrun as _ <-.
    by replace (z + allocations []) with z by (unfold allocations; simpl; lia).
  - rewrite allocations_cons. pose proof (allocations_nonneg calls).
    destruct Hinv as (l & Hreg & Hz & Hpos & Htags & Henv).
    destruct c as [klass|fuel|f]; cbn [run] in Hrun; simpl is_add;
      cbv iota.
    + apply bind_Done_inv in Hrun as ([] & w1 & Hadd & Hrun).
      apply bind_Done_inv in Hrun as (t & w1' & Hnew & Hrun).
      apply bind_Done_inv in Hrun as (ts' & w2 & Hrun & [= _ <-]).
      destruct (addPreparedClass_registry _ _ _ _ Hadd Hreg)
        as (node & env' & Hreg1 & Htag1 & Henv1 & _).
      rewrite Hz, wrap64_add_l in Hreg1, Htag1.
      assert (w1' = w1) as ->.
      { unfold newest_tag, bind, gets in Hnew.
        destruct (list_ w1); [|done].
        apply bind_Done_inv in Hnew as (n0 & w3 & ->%load_Done & [= _ <-]).
        done. }
      replace (z + (1 + allocations calls))
        with (z + 1 + allocations calls) by lia.
      apply (IH w1 (z + 1) ts' w2); [|done].
      exists (mkTrackedClass node (wrap64 (z + 1)) (classSignature klass).2 :: l).
      split; [done|]. split; [done|]. split; [lia|].
      split; [|by rewrite Henv1].
      constructor; [exists (z + 1); simpl; split; [lia|done]|].
      eapply Forall_impl; [exact Htags|]. simpl.
      intros r (k & Hk & Hr). exists k. split; [lia|done].
    + apply bind_Done_inv in Hrun as (sigs & w1 & Hproc & Hrun).
      destruct Henv as [env Henv].
      destruct (processUnloads_Done_inv _ _ _ _ _ _ Henv Hreg Hproc)
        as (Hreg1 & Hc1 & Henv1).
      replace (z + (0 + allocations calls)) with (z + allocations calls) by lia.
      apply (IH w1 z ts w'); [|done].
      exists (filter (still_live env) l).
      split; [done|]. split; [congruence|]. split; [done|].
      split; [|rewrite Henv1, Henv; eauto].
      rewrite Forall_forall in Htags. apply Forall_forall.
      intros r [_ Hin]%list_elem_of_filter. by apply Htags.
    + apply bind_Done_inv in Hrun as ([] & w1 & [= <-] & Hrun).
      replace (z + (0 + allocations calls)) with (z + allocations calls) by lia.
      apply (IH _ z) in Hrun; [done|].
      exists l. split; [done|]. split; [done|]. split; [done|].
      split; [done|].
      simpl. destruct Henv as [env ->]. simpl. eauto.
Qed.

(** C2, as amended.  Count the tags handed out since
    [classTrack_initialize], its own insertions included, whatever
    processing passes delete and whatever the virtual machine does to
    the tagging environment in between.  As long as no more than 2^64
    tags are handed out, the tags of the records inserted are pairwise
    distinct: no tag is given to a later record, whether or not the
    record that carried it has been deleted.  As long as no more than
    2^63 - 1 are handed out they are 1, 2, 3, ... in the order of
    insertion, strictly increasing. *)
Theorem tags_distinct_and_increasing w w0 classes calls ts w' :
  allLoadedClasses = (JVMTI_ERROR_NONE, classes) ->
  classTrack_initialize w = Done tt w0 ->
  run calls w0 = Done ts w' ->
  Z.of_nat (length (wanted classes)) + allocations calls <= 2 ^ 64 ->
  exists l0,
    registry w0 l0 /\
    NoDup (map tc_tag (reverse l0) ++ ts) /\
    (Z.of_nat (length (wanted classes)) + allocations calls <= JLONG_MAX ->
     map tc_tag (reverse l0) ++ ts =
       seqZ 1 (Z.of_nat (length (wanted classes)) + allocations calls) /\
     StronglySorted Z.lt (map tc_tag (reverse l0) ++ ts)).
Proof.
  intros Hall Hinit Hrun Hmax.
  destruct (handed_out_tags _ _ _ _ _ _ Hall Hinit Hrun) as (l0 & Hreg & Hts).
  exists l0. rewrite Hts. split; [done|]. split.
  - apply NoDup_fmap_2_strong; [|apply NoDup_seqZ].
    intros z1 z2 H1%elem_of_seqZ H2%elem_of_seqZ.
    apply wrap64_inj_window. lia.
  - intros Hsmall. rewrite seqZ_wrap64_small by (unfold JLONG_MAX in *; lia).
    split; [done|apply StronglySorted_seqZ].
Qed.

(** C10, as amended.  As long as fewer than 2^64 tags are handed out
    since [classTrack_initialize], zero is not among them, and no
    record of the registry carries the tag zero: the counter starts at
    zero and is incremented before each use.  As long as no more than
    2^63 - 1 are handed out, every record of the registry has a tag of
    at least 1. *)
Theorem tracked_tags_are_nonzero w w0 classes calls ts w' :
  allLoadedClasses = (JVMTI_ERROR_NONE, classes) ->
  classTrack_initialize w = Done tt w0 ->
  run calls w0 = Done ts w' ->
  Z.of_nat (length (wanted classes)) + allocations calls < 2 ^ 64 ->
  exists l0 l,
    registry w0 l0 /\
    (0 ∉ map tc_tag (reverse l0) ++ ts) /\
    registry w' l /\
    Forall (fun r => tc_tag r <> 0) l /\
    (Z.of_nat (length (wanted classes)) + allocations calls <= JLONG_MAX ->
     Forall (fun r => 1 <= tc_tag r) l).
Proof.
  intros Hall Hinit Hrun Hmax.
  destruct (handed_out_tags _ _ _ _ _ _ Hall Hinit Hrun) as (l0 & Hreg0 & Hts).
  destruct (initialize_run _ _ _ _ _ _ Hall Hinit Hrun)
    as (env0 & ts0 & Hall_run).
  apply (run_tags_wrapped _ _ 0) in Hall_run.
  2:{ exists []. split; [done|]. split; [done|]. split; [done|].
      split; [constructor|by eexists]. }
  rewrite allocations_app, allocations_adds, Z.add_0_l in Hall_run.
  destruct Hall_run as (l & Hreg & _ & _ & Htags & _).
  exists l0, l. split; [done|]. split; [|split; [done|split]].
  - rewrite Hts. intros (z & Hz & Hin%elem_of_seqZ)%list_elem_of_fmap.
    symmetry in Hz. revert Hz. apply wrap64_nonzero. lia.
  - eapply Forall_impl; [exact Htags|]. simpl.
    intros r (k & Hk & ->). apply wrap64_nonzero. lia.
  - intros Hsmall. eapply Forall_impl; [exact Htags|]. simpl.
    intros r (k & Hk & ->). rewrite wrap64_small; [lia|].
    unfold JLONG_MIN, JLONG_MAX in *. lia.
Qed.

(** [msg] is one of the messages listed. *)
Ltac one_of :=
  repeat match goal with
         | H : _ ∈ _ |- _ => apply list_elem_of_In in H; simpl in H
         end;
  apply list_elem_of_In; simpl; tauto.

Lemma addPreparedClass_insert_msg klass w e msg w' :
  addPreparedClass_insert klass w = Exit e msg w' ->
  msg ∈ ["KlassNode"; "signature"; "SetTag"].
Proof.
  unfold addPreparedClass_insert, EXIT_ERROR, bind at 1, allocate_KlassNode.
  destruct (jvmtiAllocate (heap w)) as [node|] eqn:Halloc.
  2:{ intros [= _ <- _]. one_of. }
  destruct (classSignature klass) as [error sig].
  destruct (bool_decide_reflect (error = JVMTI_ERROR_NONE)) as [->|Hne];
    simpl.
  2:{ unfold bind, jvmtiDeallocate. simpl. rewrite lookup_insert_eq.
      intros [= _ <- _]. one_of. }
  unfold bind, store, pre_increment_currentKlassTag, the_trackingEnv, load,
    modify, gets. cbn.
  repeat (rewrite lookup_insert_eq; cbn).
  destruct (trackingEnv w) as [env|]; [|done].
  cbn. repeat (rewrite lookup_insert_eq; cbn).
  destruct (SetTag env klass (wrap64 (currentKlassTag w + 1)))
    as [error env'].
  destruct (bool_decide_reflect (error = JVMTI_ERROR_NONE)) as [->|Hne];
    simpl.
  2:{ unfold jvmtiDeallocate. cbn. rewrite lookup_insert_eq.
      intros [= _ <- _]. one_of. }
  cbn. repeat (rewrite lookup_insert_eq; cbn). done.
Qed.

Lemma addPreparedClass_check_outcome klass w :
  match addPreparedClass_check klass w with
  | Done _ w' =>
      w' = w \/
      w' = with_failedAssert "Attempting to insert duplicate class" w
  | Exit e msg w' =>
      msg ∈ ["unable to get-tag with class trackingEnv!"; "Assertion Failed"]
  | Fault => trackingEnv w = None
  | OutOfFuel => False
  end.
Proof.
  unfold addPreparedClass_check, bind, the_trackingEnv, EXIT_ERROR.
  destruct (trackingEnv w) as [env|]; [|done].
  destruct (GetTag env klass) as [error tag].
  destruct (negb (bool_decide _)); [one_of|].
  destruct (negb (tag =? 0)); [|by left].
  unfold JDI_ASSERT_FAILED. destruct (assertFatal w); [one_of|by right].
Qed.

Lemma addPreparedClass_outcome klass w :
  match classTrack_addPreparedClass klass w with
  | Done _ w' => is_Some (trackingEnv w')
  | Exit e msg w' =>
      msg ∈ ["unable to get-tag with class trackingEnv!"; "Assertion Failed";
             "KlassNode"; "signature"; "SetTag"]
  | Fault => trackingEnv w = None
  | OutOfFuel => False
  end.
Proof.
  unfold classTrack_addPreparedClass, bind at 1, gets, bind at 1.
  assert (Hcheck :
    match (if assertOn w then addPreparedClass_check klass else ret tt) w with
    | Done _ w' => trackingEnv w' = trackingEnv w
    | Exit e msg w' =>
        msg ∈ ["unable to get-tag with class trackingEnv!"; "Assertion Failed"]
    | Fault => trackingEnv w = None
    | OutOfFuel => False
    end).
  { destruct (assertOn w); [|done].
    pose proof (addPreparedClass_check_outcome klass w) as Hout.
    destruct (addPreparedClass_check klass w); try done.
    by destruct Hout as [-> | ->]. }
  destruct ((if assertOn w then addPreparedClass_check klass else ret tt) w)
    as [[] w0|e0 msg0 w0| |]; [|one_of|done|done].
  pose proof (addPreparedClass_insert_outcome klass w0) as Hout.
  pose proof (addPreparedClass_insert_msg klass w0) as Hmsg.
  destruct (addPreparedClass_insert klass w0) as [[] w'|e msg w'| |].
  - destruct Hout as (? & ? & ? & ? & _ & _ & _ & _ & ->). by eexists.
  - specialize (Hmsg _ _ _ eq_refl). one_of.
  - congruence.
  - done.
Qed.

(** X13. Once the tagging environment is set, a call of
    [classTrack_addPreparedClass] either returns or takes an exit of the
    agent, whatever the heap and the list look like: it reads and
    writes no block but the one it has just allocated.  An exit carries
    one of the five messages of the function. *)
Theorem addPreparedClass_returns_or_exits klass w :
  is_Some (trackingEnv w) ->
  (exists w', classTrack_addPreparedClass klass w = Done tt w') \/
  (exists e msg w',
      classTrack_addPreparedClass klass w = Exit e msg w' /\
      msg ∈ ["unable to get-tag with class trackingEnv!"; "Assertion Failed";
             "KlassNode"; "signature"; "SetTag"]).
Proof.
  intros [env Henv].
  pose proof (addPreparedClass_outcome klass w) as Hout.
  destruct (classTrack_addPreparedClass klass w) as [[] w'|e msg w'| |].
  - left. by exists w'.
  - right. by exists e, msg, w'.
  - congruence.
  - done.
Qed.

Lemma initialize_loop_outcome classes :
  forall w,
    is_Some (trackingEnv w) ->
    match initialize_loop classes w with
    | Done _ _ => True
    | Exit e msg w' =>
        msg ∈ ["unable to get-tag with class trackingEnv!";
               "Assertion Failed"; "KlassNode"; "signature"; "SetTag"]
    | Fault | OutOfFuel => False
    end.
Proof.
  induction classes as [|klass classes IH]; intros w Henv; [done|].
  cbn [initialize_loop]. destruct (negb _).
  - unfold bind at 1.
    pose proof (addPreparedClass_outcome klass w) as Hout.
    destruct (classTrack_addPreparedClass klass w) as [[] w1|e msg w1| |].
    + by apply IH.
    + done.
    + destruct Henv. congruence.
    + done.
  - unfold bind, ret. by apply IH.
Qed.

(** X14. [classTrack_initialize] can be called in any state, on any
    host: it either returns or takes an exit of the agent, with one of
    its own two messages or one of [classTrack_addPreparedClass];
    it never reads the old list. *)
Theorem initialize_returns_or_exits w :
  (exists w', classTrack_initialize w = Done tt w') \/
  (exists e msg w',
      classTrack_initialize w = Exit e msg w' /\
      msg ∈ ["Failed to allocate tag-tracking jvmtiEnv";
             "loaded classes array";
             "unable to get-tag with class trackingEnv!"; "Assertion Failed";
             "KlassNode"; "signature"; "SetTag"]).
Proof.
  unfold classTrack_initialize, bind, modify, gets, EXIT_ERROR. simpl.
  destruct getSpecialJvmti as [env0|].
  2:{ right. do 3 eexists. split; [done|]. one_of. }
  destruct allLoadedClasses as [error classes].
  destruct (bool_decide _).
  2:{ right. do 3 eexists. split; [done|]. one_of. }
  match goal with |- context [initialize_loop classes ?w0] =>
    pose proof (initialize_loop_outcome classes w0 ltac:(by eexists)) as Hout;
    destruct (initialize_loop classes w0) as [[] w'|e msg w'| |]
  end.
  - left. by exists w'.
  - right. exists e, msg, w'. split; [done|]. one_of.
  - done.
  - done.
Qed.

End Properties.

(** * The tracker on the stub host *)

Import Stub.

Lemma initialize_stub on fatal :
  classTrack_initialize (Stub.start on fatal)
  = Done tt (tracking env_ABC on fatal).
Proof. destruct on, fatal; vm_compute; reflexivity. Qed.

Lemma registry_tracking e on fatal : registry (tracking e on fatal) [C; B; A].
Proof.
  unfold registry. simpl. split; [done|]. eexists. split; [reflexivity|].
  split; [done|]. eexists. split; [reflexivity|].
  split; [done|]. eexists. split; [reflexivity|]. done.
Qed.

(** ** Short-lived classes on a small heap *)

Lemma initialize_small :
  classTrack_initialize small_start
  = Done tt small_tracking.
Proof. vm_compute. reflexivity. Qed.

Lemma settled_initialized :
  settled 3 small_tracking.
Proof.
  split; [|by repeat split].
  unfold registry. simpl. split; [done|]. eexists. split; [reflexivity|].
  split; [done|]. eexists. split; [reflexivity|].
  split; [done|]. eexists. split; [reflexivity|]. done.
Qed.

Lemma small_bag_memory : bag_memory (host := small_host).
Proof. split; [reflexivity|intros b; reflexivity]. Qed.

(** No live object carries a tag other than 1, 2 and 3: a record with
    such a tag is found unloaded. *)
Lemma small_dead_tag (t : jlong) node sig :
  t <> 1 -> t <> 2 -> t <> 3 ->
  query_failure (host := small_host) env_ABC t = None /\
  unloaded (host := small_host) env_ABC (mkTrackedClass node t sig) = true.
Proof.
  intros H1 H2 H3.
  assert (E1 : (1 =? t) = false) by lia.
  assert (E2 : (2 =? t) = false) by lia.
  assert (E3 : (3 =? t) = false) by lia.
  unfold query_failure, unloaded. cbn -[Z.eqb]. by rewrite E1, E2, E3.
Qed.

Lemma wrap64_not_small z (k : Z) :
  3 <= z -> z + 1 <= 2 ^ 64 -> 1 <= k <= 3 -> wrap64 (z + 1) <> k.
Proof.
  intros Hz Hmax Hk Heq.
  assert (k = wrap64 k) as Hk'
    by (symmetry; apply wrap64_small; unfold JLONG_MIN, JLONG_MAX; lia).
  rewrite Hk' in Heq. apply wrap64_inj_window in Heq; lia.
Qed.

(** A class prepared when the tracker is at rest gets the next tag and
    the fourth node. *)
Lemma small_add z (w : @World small_host) :
  settled z w ->
  exists w1,
    classTrack_addPreparedClass 5%positive w = Done tt w1 /\
    newest_tag w1 = Done (wrap64 (z + 1)) w1 /\
    (exists node,
        registry w1 (mkTrackedClass node (wrap64 (z + 1)) "LD;" :: [C; B; A]) /\
        dom (heap w1) = {[node]} ∪ dom heap_ABC /\ node ∉ dom heap_ABC) /\
    trackingEnv w1 = Some ((5%positive, wrap64 (z + 1)) :: env_ABC) /\
    currentKlassTag w1 = wrap64 (z + 1) /\
    assertOn w1 = true /\ assertFatal w1 = true /\ failedAsserts w1 = [].
Proof.
  intros (Hreg & Hdom & Henv & Hz & Hon & Hfatal & Hlog).
  assert (Halloc : small_allocate (heap w) = Some (fresh (dom (heap w)))).
  { unfold small_allocate. rewrite decide_True; [done|].
    rewrite <- size_dom, Hdom. by vm_compute. }
  exists (inserted w (fresh (dom (heap w))) "LD;"
            ((5%positive, wrap64 (z + 1)) :: env_ABC)).
  split.
  { eapply addPreparedClass_Done; [exact Henv|done|exact Halloc|done|].
    by rewrite Hz, wrap64_add_l. }
  split.
  { rewrite newest_tag_inserted. by rewrite Hz, wrap64_add_l. }
  split.
  { exists (fresh (dom (heap w))). split; [|split].
    - rewrite <- wrap64_add_l, <- Hz. by apply registry_inserted.
    - simpl. by rewrite dom_insert_L, Hdom.
    - rewrite <- Hdom. apply is_fresh. }
  simpl. by rewrite Hz, wrap64_add_l.
Qed.

Lemma small_short_life z (w : @World small_host) :
  settled z w -> 3 <= z -> z + 1 <= 2 ^ 64 ->
  exists w', run short_life w = Done [wrap64 (z + 1)] w' /\ settled (z + 1) w'.
Proof.
  intros Hset Hz Hmax.
  destruct (small_add z w Hset)
    as (w1 & Hadd & Hnew & (node & Hreg1 & Hdom1 & Hnode) & Henv1 & Hc1 &
        Hon1 & Hfatal1 & Hlog1).
  set (w2 := with_trackingEnv (host := small_host) (Some env_ABC) w1).
  assert (Hreg2 : registry w2
            (mkTrackedClass node (wrap64 (z + 1)) "LD;" :: [C; B; A]))
    by exact Hreg1.
  destruct (small_dead_tag (wrap64 (z + 1)) node "LD;") as [Hquiet Hdead];
    [apply wrap64_not_small; lia..|].
  pose proof (processUnloads_outcome (host := small_host) env_ABC w2 _ 4
                eq_refl Hreg2) as Hout.
  assert (Hlive : filter (still_live (host := small_host) env_ABC)
                    (mkTrackedClass node (wrap64 (z + 1)) "LD;" :: [C; B; A])
                  = [C; B; A]).
  { rewrite filter_cons_False; [reflexivity|]. unfold still_live. rewrite Hdead. simpl. tauto. }
  assert (Hgone : filter (unloaded (host := small_host) env_ABC)
                    (mkTrackedClass node (wrap64 (z + 1)) "LD;" :: [C; B; A])
                  = [mkTrackedClass node (wrap64 (z + 1)) "LD;"]).
  { rewrite filter_cons_True; [reflexivity|]. by rewrite Hdead. }
  assert (Hff : first_failure (host := small_host) env_ABC
                  (mkTrackedClass node (wrap64 (z + 1)) "LD;" :: [C; B; A])
                = None).
  { cbn [first_failure tc_tag]. by rewrite Hquiet. }
  destruct (classTrack_processUnloads 4 w2) as [sigs w3|e msg w3| |] eqn:Hpass.
  - destruct Hout as (_ & _ & _ & _ & Hreg3 & Hstat & _ & Hdom3).
    rewrite Hlive in Hreg3. rewrite Hgone in Hdom3.
    exists w3. split.
    + unfold short_life. cbn [run]. unfold bind at 1. rewrite Hadd.
      unfold bind at 1. rewrite Hnew. unfold bind, modify, ret. cbn beta.
      rewrite Henv1.
      match goal with
      | |- context [classTrack_processUnloads 4 ?x] => change x with w2
      end.
      by rewrite Hpass.
    + split; [done|]. split.
      { rewrite Hdom3. subst w2. simpl. rewrite Hdom1. simpl.
        apply set_eq. intros a.
        rewrite elem_of_difference, !elem_of_union, elem_of_empty,
          elem_of_singleton.
        split; [tauto|]. intros Ha. split; [by right|].
        intros [->|[]]. done. }
      apply (f_equal trackingEnv) in Hstat as He.
      apply (f_equal currentKlassTag) in Hstat as Hc.
      apply (f_equal assertOn) in Hstat as Ho.
      apply (f_equal assertFatal) in Hstat as Hf.
      apply (f_equal failedAsserts) in Hstat as Hl.
      simpl in He, Hc, Ho, Hf, Hl.
      rewrite He, Hc, Ho, Hf, Hl. by repeat split.
  - destruct Hout as [Hout|(_ & _ & Hno)]; [congruence|].
    destruct Hno. apply small_bag_memory.
  - done.
  - simpl in Hout. lia.
Qed.

(** [n] short-lived classes in a row: the small heap is enough, no call
    is refused, and the tags are the successors of the counter, wrapped
    around. *)
Lemma small_run_churn (n : nat) :
  forall z (w : @World small_host),
    settled z w -> 3 <= z -> z + Z.of_nat n <= 2 ^ 64 ->
    exists w',
      run (churn n) w = Done (wrap64 <$> seqZ (z + 1) (Z.of_nat n)) w' /\
      settled (z + Z.of_nat n) w'.
Proof.
  induction n as [|n IH]; intros z w Hset Hz Hmax.
  - exists w. rewrite seqZ_nil by done. split; [done|].
    by replace (z + Z.of_nat 0) with z by lia.
  - destruct (small_short_life z w Hset Hz) as (w1 & Hrun1 & Hset1); [lia|].
    destruct (IH (z + 1) w1 Hset1) as (w' & Hrun & Hset'); [lia|lia|].
    exists w'. split.
    + cbn [churn]. rewrite (run_app _ _ _ _ _ _ _ Hrun1 Hrun).
      by rewrite seqZ_succ_cons.
    + by replace (z + Z.of_nat (S n)) with (z + 1 + Z.of_nat n) by lia.
Qed.

(** After [n] short-lived classes, one more class is prepared and
    stays. *)
Lemma small_churn_then_add (n : Z) :
  0 <= n -> 3 + n <= 2 ^ 64 ->
  exists (w' : @World small_host) node,
    run (churn (Z.to_nat n) ++ [AddPreparedClass (host := small_host) 5%positive])
        small_tracking
      = Done ((wrap64 <$> seqZ 4 n) ++ [wrap64 (n + 4)]) w' /\
    registry w' (mkTrackedClass node (wrap64 (n + 4)) "LD;" :: [C; B; A]) /\
    trackingEnv w' = Some ((5%positive, wrap64 (n + 4)) :: env_ABC) /\
    assertOn w' = true /\
    failedAsserts w' = [].
Proof.
  intros Hn Hmax.
  destruct (small_run_churn (Z.to_nat n) 3 _ settled_initialized)
    as (w1 & Hrun1 & Hset1); [lia|lia|].
  rewrite Z2Nat.id in Hrun1, Hset1 by lia.
  destruct (small_add (3 + n) w1 Hset1)
    as (w2 & Hadd & Hnew & (node & Hreg2 & _) & Henv2 & _ & Hon2 & _ & Hlog2).
  replace (3 + n + 1) with (n + 4) in * by lia.
  exists w2, node. split; [|done].
  apply (run_app _ _ _ _ _ _ _ Hrun1).
  cbn [run]. unfold bind at 1. rewrite Hadd. unfold bind at 1. rewrite Hnew.
  done.
Qed.

(** The duplicate check does not see a class whose tag is zero. *)
Lemma small_check_zero (w : @World small_host) :
  trackingEnv w = Some ((5%positive, 0) :: env_ABC) ->
  addPreparedClass_check 5%positive w = Done tt w.
Proof.
  intros Henv. unfold addPreparedClass_check, bind, the_trackingEnv.
  rewrite Henv. reflexivity.
Qed.

(** C2, as stated, fails, and on a heap with room for four nodes.
    [classTrack_initialize] hands out the tags 1, 2, 3 to A, B and C,
    which stay alive.  Then classes come and go, one at a time, each
    prepared, unloaded and reported by a pass before the next is
    prepared; the duplicate check is on, no call is refused and no
    assertion is reported.

    - After 2^63 - 4 such classes the next class prepared, which takes
      allocation number 2^63, gets the tag -2^63: the tags handed out
      are not strictly increasing.
    - After 2^64 - 3 such classes the next class prepared, which takes
      allocation number 2^64 + 1, gets the tag 1, which A still
      carries: the tags handed out are not pairwise distinct, and a
      tag has been given to a later record. *)
Lemma tags_wrap_around :
  classTrack_initialize small_start = Done tt small_tracking /\
  registry small_tracking [C; B; A] /\
  (exists ts w',
      run (churn (Z.to_nat (2 ^ 63 - 4))
             ++ [AddPreparedClass (host := small_host) 5%positive])
          small_tracking = Done ts w' /\
      failedAsserts w' = [] /\
      ~ StronglySorted Z.lt ts) /\
  (exists ts w' r,
      run (churn (Z.to_nat (2 ^ 64 - 3))
             ++ [AddPreparedClass (host := small_host) 5%positive])
          small_tracking = Done ts w' /\
      failedAsserts w' = [] /\
      registry w' (r :: [C; B; A]) /\
      tc_tag r = tc_tag A /\
      ~ NoDup (map tc_tag (reverse [C; B; A]) ++ ts)).
Proof.
  split; [exact initialize_small|].
  split; [exact (proj1 settled_initialized)|]. split.
  - destruct (small_churn_then_add (2 ^ 63 - 4))
      as (w' & node & Hrun & _ & _ & _ & Hlog); [lia|lia|].
    exists ((wrap64 <$> seqZ 4 (2 ^ 63 - 4)) ++ [wrap64 (2 ^ 63 - 4 + 4)]), w'.
    split; [exact Hrun|]. split; [exact Hlog|]. clear Hrun Hlog.
    rewrite (seqZ_cons 4) by lia. rewrite fmap_cons.
    intros Hsorted. apply StronglySorted_inv in Hsorted as [_ Hall].
    apply Forall_app in Hall as [_ Hlast].
    apply Forall_inv in Hlast. revert Hlast. clear.
    replace (2 ^ 63 - 4 + 4) with (2 ^ 63) by lia.
    change (4 < wrap64 (2 ^ 63) -> False).
    vm_compute. intros Hlt. discriminate Hlt.
  - destruct (small_churn_then_add (2 ^ 64 - 3))
      as (w' & node & Hrun & Hreg & _ & _ & Hlog); [lia|lia|].
    assert (Hone : wrap64 (2 ^ 64 - 3 + 4) = 1).
    { replace (2 ^ 64 - 3 + 4) with (2 ^ 64 + 1) by lia.
      vm_compute. reflexivity. }
    rewrite Hone in Hrun, Hreg.
    exists ((wrap64 <$> seqZ 4 (2 ^ 64 - 3)) ++ [1]), w',
      (mkTrackedClass node 1 "LD;").
    split; [exact Hrun|]. split; [exact Hlog|]. split; [exact Hreg|].
    split; [reflexivity|]. clear.
    change (map tc_tag (reverse [C; B; A])) with [1; 2; 3].
    cbn [app]. intros Hnd. apply NoDup_cons in Hnd as [Hnot _].
    apply Hnot. do 2 apply list_elem_of_further.
    apply elem_of_app. right. apply list_elem_of_here.
Qed.

(** C10, as stated, fails, and on a heap with room for four nodes.
    As above, A, B and C stay alive and classes come and go, one at a
    time, with the duplicate check on.

    - After 2^63 - 4 such classes the next class prepared is tracked
      with the tag -2^63, which is not at least 1.
    - After 2^64 - 4 such classes the next class prepared, which takes
      allocation number 2^64, is tracked with the tag 0: zero has been
      allocated to a record, and the duplicate check lets this tracked
      class pass as if it were not tracked. *)
Lemma tag_zero_is_allocated :
  classTrack_initialize small_start = Done tt small_tracking /\
  (exists ts w' r,
      run (churn (Z.to_nat (2 ^ 63 - 4))
             ++ [AddPreparedClass (host := small_host) 5%positive])
          small_tracking = Done ts w' /\
      failedAsserts w' = [] /\
      registry w' (r :: [C; B; A]) /\
      tc_tag r = JLONG_MIN /\ ~ 1 <= tc_tag r) /\
  (exists ts w' r,
      run (churn (Z.to_nat (2 ^ 64 - 4))
             ++ [AddPreparedClass (host := small_host) 5%positive])
          small_tracking = Done ts w' /\
      failedAsserts w' = [] /\
      registry w' (r :: [C; B; A]) /\
      tc_tag r = 0 /\ 0 ∈ ts /\
      tc_sig r = (classSignature 5%positive).2 /\
      addPreparedClass_check 5%positive w' = Done tt w').
Proof.
  split; [exact initialize_small|]. split.
  - destruct (small_churn_then_add (2 ^ 63 - 4))
      as (w' & node & Hrun & Hreg & _ & _ & Hlog); [lia|lia|].
    assert (Hmin : wrap64 (2 ^ 63 - 4 + 4) = JLONG_MIN).
    { replace (2 ^ 63 - 4 + 4) with (2 ^ 63) by lia.
      vm_compute. reflexivity. }
    rewrite Hmin in Hrun, Hreg.
    exists ((wrap64 <$> seqZ 4 (2 ^ 63 - 4)) ++ [JLONG_MIN]), w',
      (mkTrackedClass node JLONG_MIN "LD;").
    split; [exact Hrun|]. split; [exact Hlog|]. split; [exact Hreg|].
    split; [reflexivity|]. clear. vm_compute. intros H. apply H. reflexivity.
  - destruct (small_churn_then_add (2 ^ 64 - 4))
      as (w' & node & Hrun & Hreg & Henv & _ & Hlog); [lia|lia|].
    assert (Hzero : wrap64 (2 ^ 64 - 4 + 4) = 0).
    { replace (2 ^ 64 - 4 + 4) with (2 ^ 64) by lia.
      vm_compute. reflexivity. }
    rewrite Hzero in Hrun, Hreg, Henv.
    exists ((wrap64 <$> seqZ 4 (2 ^ 64 - 4)) ++ [0]), w',
      (mkTrackedClass node 0 "LD;").
    split; [exact Hrun|]. split; [exact Hlog|]. split; [exact Hreg|].
    split; [reflexivity|]. split.
    { clear. apply elem_of_app. right. apply list_elem_of_here. }
    split; [reflexivity|]. clear Hrun Hreg Hlog.
    exact (small_check_zero w' Henv).
Qed.

(** C9, as stated, fails.  After [classTrack_initialize] on the stub
    and then [classTrack_reset], the three records are still in the
    registry, their nodes still allocated, and the tagging environment
    still in place. *)
Lemma reset_releases_nothing :
  exists w : World,
    classTrack_initialize (Stub.start false false) = Done tt w /\
    classTrack_reset w = Done tt w /\
    registry w [C; B; A] /\
    size (heap w) = 3%nat /\
    is_Some (trackingEnv w).
Proof.
  exists (tracking env_ABC false false).
  split; [apply initialize_stub|]. split; [reflexivity|].
  split; [apply registry_tracking|]. split; [by vm_compute|by eexists].
Qed.

(** ** The theorems at work on the stub *)

Lemma stub_answers_AC :
  Forall (fun r => answers_liveness env_AC (tc_tag r)) [C; B; A].
Proof.
  repeat apply Forall_cons_2; [exists 1|exists 0|exists 1|apply Forall_nil_2];
    (split; [reflexivity|auto]).
Qed.

Lemma stub_bag_memory : bag_memory.
Proof. split; [reflexivity|intros b; reflexivity]. Qed.

Lemma processUnloads_partitions_witness :
  exists sigs w',
    classTrack_processUnloads 3 (tracking env_AC false false) = Done sigs w' /\
    sigs ≡ₚ ["LB;"] /\
    registry w' [C; A].
Proof.
  apply (processUnloads_partitions env_AC (tracking env_AC false false)
           [C; B; A] 3).
  - reflexivity.
  - apply registry_tracking.
  - apply stub_answers_AC.
  - apply stub_bag_memory.
  - simpl. lia.
Defined.

Lemma processUnloads_conserves_records_witness :
  exists sigs w',
    classTrack_processUnloads 3 (tracking env_AC false false) = Done sigs w' /\
    [C; B; A] ≡ₚ [C; A] ++ [B] /\
    registry w' [C; A] /\
    sigs ≡ₚ ["LB;"] /\
    (forall s, s ∈ sigs -> exists r, r ∈ [C; B; A] /\ tc_sig r = s) /\
    dom (heap w') = dom heap_ABC ∖ list_to_set [2%positive] /\
    (forall a, a ∉ addrs [C; B; A] -> heap w' !! a = heap_ABC !! a).
Proof.
  apply (processUnloads_conserves_records env_AC (tracking env_AC false false)
           [C; B; A] 3).
  - reflexivity.
  - apply registry_tracking.
  - apply stub_answers_AC.
  - apply stub_bag_memory.
  - simpl. lia.
Defined.

Lemma extra_tags_are_fatal_witness :
  isClassUnloaded 1 (tracking env_AAC false false)
    = Exit AGENT_ERROR_INTERNAL "Unexpected extra tags in trackingEnv!"
           (tracking env_AAC false false) /\
  exists w',
    classTrack_processUnloads 3 (tracking env_AAC false false)
      = Exit AGENT_ERROR_INTERNAL "Unexpected extra tags in trackingEnv!" w'.
Proof.
  destruct (extra_tags_are_fatal env_AAC (tracking env_AAC false false) 1 2)
    as [Hone Hpass].
  - reflexivity.
  - reflexivity.
  - split; [exact Hone|].
    destruct (Hpass [C; B] A [] 3%nat) as (e & msg & w' & Hrun & Hwhy).
    + apply registry_tracking.
    + reflexivity.
    + lia.
    + lia.
    + simpl. lia.
    + destruct Hwhy as [-> ->].
      * repeat apply Forall_cons_2; [exists 1|exists 0|apply Forall_nil_2];
          (split; [reflexivity|auto]).
      * by exists w'.
Defined.

Lemma processUnloads_all_live_witness :
  classTrack_processUnloads 3 (tracking env_ABC false false)
    = Done [] (tracking env_ABC false false) /\
  forall klass w0,
    classTrack_addPreparedClass klass w0
      = Done tt (tracking env_ABC false false) ->
    (classTrack_addPreparedClass klass ;;; classTrack_processUnloads 3) w0
      = Done [] (tracking env_ABC false false) /\
    exists r l0, [C; B; A] = r :: l0 /\
                 tc_sig r = (classSignature klass).2 /\
                 tc_tag r = 3.
Proof.
  apply (processUnloads_all_live env_ABC (tracking env_ABC false false)
           [C; B; A] 3).
  - reflexivity.
  - apply registry_tracking.
  - repeat apply Forall_cons_2; try apply Forall_nil_2; reflexivity.
  - reflexivity.
  - simpl. lia.
Defined.

Lemma addPreparedClass_pushes_record_witness :
  exists w',
    classTrack_addPreparedClass 4%positive (tracking env_ABC true true)
      = Done tt w' /\
    heap w' = <[4%positive := mkKlassNode 4 "LD;" (Some 3%positive)]> heap_ABC /\
    list_ w' = Some 4%positive /\
    currentKlassTag w' = 4 /\
    trackingEnv w' = Some ((4%positive, 4) :: env_ABC) /\
    failedAsserts w' = [] /\
    registry w' [mkTrackedClass 4%positive 4 "LD;"; C; B; A].
Proof.
  apply (addPreparedClass_pushes_record 4%positive (tracking env_ABC true true)
           env_ABC 4%positive "LD;" ((4%positive, 4) :: env_ABC) [C; B; A]).
  - reflexivity.
  - intros _. reflexivity.
  - vm_compute. reflexivity.
  - reflexivity.
  - reflexivity.
  - apply registry_tracking.
Defined.

Lemma initialize_tracks_prepared_witness :
  classTrack_initialize (Stub.start true true)
    = initialize_loop [1; 2; 4; 3]%positive
        (reinitialized (Stub.start true true) []) /\
  exists l,
    registry (tracking env_ABC true true) l /\
    map tc_sig (reverse l) = ["LA;"; "LB;"; "[LC;"] /\
    map tc_tag (reverse l) = [1; 2; 3] /\
    NoDup (map tc_tag l) /\
    currentKlassTag (tracking env_ABC true true) = 3 /\
    is_Some (trackingEnv (tracking env_ABC true true)).
Proof.
  apply (initialize_tracks_prepared (Stub.start true true)
           (tracking env_ABC true true) [] [1; 2; 4; 3]%positive).
  - reflexivity.
  - reflexivity.
  - vm_compute. reflexivity.
  - apply initialize_stub.
Defined.

Lemma duplicate_insertion_asserts_witness :
  classTrack_addPreparedClass 2%positive (tracking env_ABC true true) =
    Exit AGENT_ERROR_INTERNAL "Assertion Failed"
         (with_failedAssert "Attempting to insert duplicate class"
            (tracking env_ABC true true))
  /\
  (classTrack_addPreparedClass 2%positive (tracking env_ABC true false) =
     addPreparedClass_insert 2%positive
       (with_failedAssert "Attempting to insert duplicate class"
          (tracking env_ABC true false)) /\
   exists w',
     classTrack_addPreparedClass 2%positive (tracking env_ABC true false)
       = Done tt w' /\
     registry w' [mkTrackedClass 4%positive 4 "LB;"; C; B; A] /\
     failedAsserts w' = ["Attempting to insert duplicate class"])
  /\
  (classTrack_addPreparedClass 4%positive (tracking env_ABC true true)
     = addPreparedClass_insert 4%positive (tracking env_ABC true true) /\
   match classTrack_addPreparedClass 4%positive (tracking env_ABC true true)
   with
   | Done _ w' | Exit _ _ w' => failedAsserts w' = []
   | Fault | OutOfFuel => False
   end /\
   exists w',
     classTrack_addPreparedClass 4%positive (tracking env_ABC true true)
       = Done tt w' /\
     registry w' [mkTrackedClass 4%positive 4 "LD;"; C; B; A] /\
     list_ w' = Some 4%positive /\
     currentKlassTag w' = 4 /\
     trackingEnv w' = Some ((4%positive, 4) :: env_ABC) /\
     failedAsserts w' = []).
Proof.
  split; [|split].
  - apply (duplicate_insertion_asserts 2%positive (tracking env_ABC true true)
             env_ABC 2); [reflexivity..|lia].
  - destruct (duplicate_insertion_asserts 2%positive
                (tracking env_ABC true false) env_ABC 2)
      as [[Heq Hpush] _]; [reflexivity..|lia|].
    split; [exact Heq|].
    apply (Hpush 4%positive "LB;"
             [(2%positive, 4); (3%positive, 3); (1%positive, 1)] [C; B; A]).
    + reflexivity.
    + reflexivity.
    + reflexivity.
    + reflexivity.
    + apply registry_tracking.
  - destruct (duplicate_insertion_asserts 4%positive
                (tracking env_ABC true true) env_ABC 0)
      as [_ (Heq & Hquiet & Hpush)]; [reflexivity..|].
    split; [exact Heq|]. split; [exact Hquiet|].
    apply (Hpush 4%positive "LD;" ((4%positive, 4) :: env_ABC) [C; B; A]).
    + reflexivity.
    + reflexivity.
    + reflexivity.
    + apply registry_tracking.
Defined.

Lemma stub_run_calls :
  run example_calls (tracking env_ABC true true) = Done [4; 5] after_calls.
Proof. vm_compute. reflexivity. Qed.

Lemma tags_distinct_and_increasing_witness :
  exists l0,
    registry (tracking env_ABC true true) l0 /\
    NoDup (map tc_tag (reverse l0) ++ [4; 5]) /\
    map tc_tag (reverse l0) ++ [4; 5] = [1; 2; 3; 4; 5] /\
    StronglySorted Z.lt (map tc_tag (reverse l0) ++ [4; 5]).
Proof.
  destruct (tags_distinct_and_increasing (Stub.start true true)
              (tracking env_ABC true true) [1; 2; 4; 3]%positive
              example_calls [4; 5] after_calls)
    as (l0 & Hreg & Hnd & Hinc).
  - reflexivity.
  - apply initialize_stub.
  - apply stub_run_calls.
  - vm_compute. discriminate.
  - exists l0. split; [exact Hreg|]. split; [exact Hnd|].
    apply Hinc. vm_compute. discriminate.
Defined.

Lemma tracked_tags_are_nonzero_witness :
  exists l0 l,
    registry (tracking env_ABC true true) l0 /\
    (0 ∉ map tc_tag (reverse l0) ++ [4; 5]) /\
    registry after_calls l /\
    Forall (fun r => tc_tag r <> 0) l /\
    Forall (fun r => 1 <= tc_tag r) l.
Proof.
  destruct (tracked_tags_are_nonzero (Stub.start true true)
              (tracking env_ABC true true) [1; 2; 4; 3]%positive
              example_calls [4; 5] after_calls)
    as (l0 & l & Hreg0 & Hzero & Hreg & Hne & Hpos).
  - reflexivity.
  - apply initialize_stub.
  - apply stub_run_calls.
  - vm_compute. reflexivity.
  - exists l0, l. split; [exact Hreg0|]. split; [exact Hzero|].
    split; [exact Hreg|]. split; [exact Hne|].
    apply Hpos. vm_compute. discriminate.
Defined.

(** ** The further properties at work on the stub *)

Lemma stub_pass_AC :
  classTrack_processUnloads 3 (tracking env_AC false false)
  = Done ["LB;"] after_pass.
Proof. vm_compute. reflexivity. Qed.

Lemma stub_plays_along : host_plays_along.
Proof.
  split; [intros h; by eexists|]. split; [done|]. split; [done|done].
Qed.

Lemma registry_tracking_deaf : registry tracking_deaf [C; B; A].
Proof.
  unfold registry. simpl. split; [done|]. eexists. split; [reflexivity|].
  split; [done|]. eexists. split; [reflexivity|].
  split; [done|]. eexists. split; [reflexivity|]. done.
Qed.

Lemma processUnloads_reports_oldest_first_witness :
  exists w',
    classTrack_processUnloads 3 (tracking env_C false false)
      = Done ["LA;"; "LB;"] w'.
Proof.
  apply (processUnloads_reports_oldest_first env_C
           (tracking env_C false false) [C; B; A] 3).
  - reflexivity.
  - apply registry_tracking.
  - repeat apply Forall_cons_2; [exists 1|exists 0|exists 0|apply Forall_nil_2];
      (split; [reflexivity|auto]).
  - apply stub_bag_memory.
  - simpl. lia.
Defined.

Lemma processUnloads_returns_or_exits_witness :
  (exists sigs w',
      classTrack_processUnloads 3 (tracking env_AAC false false)
        = Done sigs w') \/
  (exists e msg w',
      classTrack_processUnloads 3 (tracking env_AAC false false)
        = Exit e msg w' /\
      (first_failure env_AAC [C; B; A] = Some (e, msg) \/
       (e = AGENT_ERROR_OUT_OF_MEMORY /\ ~ bag_memory))).
Proof.
  apply (processUnloads_returns_or_exits env_AAC
           (tracking env_AAC false false) [C; B; A] 3).
  - reflexivity.
  - apply registry_tracking.
  - simpl. lia.
Defined.

Lemma processUnloads_second_pass_is_quiet_witness :
  exists sigs w',
    classTrack_processUnloads 3 (tracking env_AC false false)
      = Done sigs w' /\
    classTrack_processUnloads 3 w' = Done [] w'.
Proof.
  apply (processUnloads_second_pass_is_quiet env_AC
           (tracking env_AC false false) [C; B; A] 3).
  - reflexivity.
  - apply registry_tracking.
  - apply stub_answers_AC.
  - apply stub_bag_memory.
  - simpl. lia.
Defined.

Lemma query_error_is_fatal_witness :
  exists w',
    classTrack_processUnloads 3 tracking_deaf
      = Exit (JVMTI_ERROR 112)
             "Failed GetObjectsWithTags for class tracking" w'.
Proof.
  apply (query_error_is_fatal (host := deaf_host) env_ABC tracking_deaf
           [C] B [A] 3 (JVMTI_ERROR 112) 0).
  - reflexivity.
  - apply registry_tracking_deaf.
  - apply Forall_cons_2; [|apply Forall_nil_2].
    exists 1. split; [reflexivity|auto].
  - reflexivity.
  - discriminate.
  - simpl. lia.
Defined.

Lemma processUnloads_keeps_counter_and_session_witness :
  currentKlassTag after_pass = 3 /\
  trackingEnv after_pass = Some env_AC /\
  failedAsserts after_pass = [].
Proof.
  apply (processUnloads_keeps_counter_and_session 3
           (tracking env_AC false false) ["LB;"] after_pass).
  apply stub_pass_AC.
Defined.

Lemma deleteList_releases_the_list_witness :
  exists w',
    deleteList 3 (Some 3%positive) (tracking env_ABC false false)
      = Done ["[LC;"; "LB;"; "LA;"] w' /\
    list_ w' = Some 3%positive /\
    dom (heap w') = dom heap_ABC ∖ list_to_set [3; 2; 1]%positive /\
    (forall a, a ∉ [3; 2; 1]%positive -> heap w' !! a = heap_ABC !! a).
Proof.
  apply (deleteList_releases_the_list (tracking env_ABC false false)
           (Some 3%positive) [C; B; A] 3).
  - apply (registry_tracking env_ABC false false).
  - apply stub_bag_memory.
  - simpl. lia.
Defined.

Lemma addPreparedClass_exit_keeps_registry_witness :
  exists w',
    classTrack_addPreparedClass 2%positive (tracking env_ABC true true)
      = Exit AGENT_ERROR_INTERNAL "Assertion Failed" w' /\
    registry w' [C; B; A] /\
    heap w' = heap_ABC /\
    currentKlassTag w' = 3.
Proof.
  exists (with_failedAssert "Attempting to insert duplicate class"
            (tracking env_ABC true true)).
  destruct (addPreparedClass_exit_keeps_registry 2%positive
              (tracking env_ABC true true) AGENT_ERROR_INTERNAL
              "Assertion Failed"
              (with_failedAssert "Attempting to insert duplicate class"
                 (tracking env_ABC true true)) [C; B; A])
    as (Hreg & Hheap & [Hmsg|Htag]).
  - vm_compute. reflexivity.
  - apply registry_tracking.
  - discriminate Hmsg.
  - split; [vm_compute; reflexivity|].
    split; [exact Hreg|]. split; [exact Hheap|exact Htag].
Defined.

Lemma initialize_returns_witness :
  exists w', classTrack_initialize (Stub.start true false) = Done tt w'.
Proof.
  apply (initialize_returns (Stub.start true false) []
           [1; 2; 4; 3]%positive).
  - reflexivity.
  - reflexivity.
  - apply stub_plays_along.
  - right. reflexivity.
Defined.

Lemma tracker_owns_every_node_witness :
  exists l,
    registry after_calls l /\
    dom (heap after_calls) = list_to_set (addrs l).
Proof.
  apply (tracker_owns_every_node (Stub.start true true)
           (tracking env_ABC true true) [1; 2; 4; 3]%positive
           example_calls [4; 5] after_calls).
  - reflexivity.
  - reflexivity.
  - apply initialize_stub.
  - apply stub_run_calls.
Defined.

Lemma registry_is_newest_first_witness :
  exists l,
    registry after_calls l /\
    StronglySorted Z.gt (map tc_tag l) /\
    NoDup (map tc_tag l) /\
    Forall (fun r => tc_tag r <= currentKlassTag after_calls) l /\
    currentKlassTag after_calls = 3 + 2.
Proof.
  apply (registry_is_newest_first (Stub.start true true)
           (tracking env_ABC true true) [1; 2; 4; 3]%positive
           example_calls [4; 5] after_calls).
  - reflexivity.
  - apply initialize_stub.
  - apply stub_run_calls.
  - vm_compute. discriminate.
Defined.

Lemma tags_never_repeat_below_2_64_witness :
  exists l0,
    registry (tracking env_ABC true true) l0 /\
    NoDup (map tc_tag (reverse l0) ++ [4; 5]) /\
    0 ∉ map tc_tag (reverse l0) ++ [4; 5].
Proof.
  apply (tags_never_repeat_below_2_64 (Stub.start true true)
           (tracking env_ABC true true) [1; 2; 4; 3]%positive
           example_calls [4; 5] after_calls).
  - reflexivity.
  - vm_compute. reflexivity.
  - apply initialize_stub.
  - apply stub_run_calls.
  - vm_compute. reflexivity.
Defined.

Lemma addPreparedClass_returns_or_exits_witness :
  (exists w',
      classTrack_addPreparedClass 2%positive (tracking env_ABC true true)
        = Done tt w') \/
  (exists e msg w',
      classTrack_addPreparedClass 2%positive (tracking env_ABC true true)
        = Exit e msg w' /\
      msg ∈ ["unable to get-tag with class trackingEnv!"; "Assertion Failed";
             "KlassNode"; "signature"; "SetTag"]).
Proof.
  apply (addPreparedClass_returns_or_exits 2%positive
           (tracking env_ABC true true)).
  by eexists.
Defined.
